(** * Sender categorization pipeline (apps/web, categorize/senders)

    A shallow embedding of the server-side pipeline that follows the chart
    component in [EmailActionsAnalytics.tsx]: [categorizeSenders] and the
    functions it calls.  Asynchronous code is written in a small monad that
    threads the persistent store and a trace of the external calls, and in
    which an exception aborts the rest of the computation while keeping the
    writes already made (every [await]ed write commits on its own).
    Logging ([logger.info], [logger.error], [console.log]) is left out. *)

From Stdlib Require Import String Ascii List Bool ZArith Lia.
Import ListNotations.
Open Scope string_scope.
Open Scope list_scope.

Set Implicit Arguments.

(** ** JavaScript values *)

(** [String.prototype.includes]. *)
Fixpoint includes (s sub : string) : bool :=
  if String.prefix sub s then true
  else match s with
       | EmptyString => false
       | String _ rest => includes rest sub
       end.

(** Truthiness of a [string | undefined]: undefined and the empty string are
    falsy. *)
Definition truthy (c : option string) : bool :=
  match c with
  | Some s => negb (s =? EmptyString)
  | None => false
  end.

(** [a === b] on [string | undefined]. *)
Definition opt_eqb (a b : option string) : bool :=
  match a, b with
  | Some x, Some y => x =? y
  | None, None => true
  | _, _ => false
  end.

(** lodash [uniq]: keeps the first occurrence of every element. *)
Fixpoint uniq_from (seen l : list string) : list string :=
  match l with
  | [] => []
  | x :: rest =>
      if existsb (String.eqb x) seen then uniq_from seen rest
      else x :: uniq_from (x :: seen) rest
  end.

Definition uniq (l : list string) : list string := uniq_from [] l.

(** [isDefined]-filter of an array of optional values. *)
Fixpoint filter_isDefined {A} (l : list (option A)) : list A :=
  match l with
  | [] => []
  | Some a :: rest => a :: filter_isDefined rest
  | None :: rest => filter_isDefined rest
  end.

(** A JavaScript [Map] with string keys: entries in insertion order, a key
    at most once when built with [set]. *)
Module JsMap.
Definition t (V : Type) := list (string * V).

Fixpoint get {V} (m : t V) (k : string) : option V :=
  match m with
  | [] => None
  | (k', v) :: rest => if k' =? k then Some v else get rest k
  end.

Fixpoint set {V} (m : t V) (k : string) (v : V) : t V :=
  match m with
  | [] => [(k, v)]
  | (k', v') :: rest =>
      if k' =? k then (k', v) :: rest else (k', v') :: set rest k v
  end.

(** [new Map(entries)] *)
Definition of_entries {V} (entries : list (string * V)) : t V :=
  fold_left (fun m kv => set m (fst kv) (snd kv)) entries [].

(** [Array.from(m.keys())] *)
Definition keys {V} (m : t V) : list string := List.map fst m.

End JsMap.

(** ** Constants imported from modules outside this file *)

(** Modelled from the spec: [defaultCategory] of [@/utils/categories] is not
    in the sources; the spec names the three categories the static rules
    produce "Unknown", "Newsletter" and "Receipt". *)
Definition defaultCategory_UNKNOWN_name : string := "Unknown".

(** Modelled from the spec: [defaultCategory.NEWSLETTER.name], as above. *)
Definition defaultCategory_NEWSLETTER_name : string := "Newsletter".

(** Modelled from the spec: [defaultCategory.RECEIPT.name], as above. *)
Definition defaultCategory_RECEIPT_name : string := "Receipt".

(** Modelled from the spec: [REQUEST_MORE_INFORMATION_CATEGORY] of the batch
    classifier's module is not in the sources; the spec calls the sentinel
    "request more information". *)
Definition REQUEST_MORE_INFORMATION_CATEGORY : string :=
  "request more information".

(** ** Data *)

(** [{ sender: string; category?: string }] *)
Record SenderResult := mkResult {
  r_sender : string;
  r_category : option string
}.

(** [ParsedMessage], of which the pipeline reads the snippet only. *)
Record ParsedMessage := mkMessage { snippet : option string }.

Definition SenderMap := JsMap.t (list ParsedMessage).

(** A row of the [Category] table. *)
Record Category := mkCategory {
  cat_id : string;
  cat_name : string;
  cat_description : option string;
  cat_userId : string
}.

(** A row of the [Newsletter] table (the sender's assignment); the pair
    (email, userId) is its compound unique key [email_userId]. *)
Record Newsletter := mkNewsletter {
  nl_email : string;
  nl_userId : string;
  nl_categoryId : option string
}.

(** A row of the [User] table: the watermark; times are epoch milliseconds,
    [None] is [null]. *)
Record User := mkUser {
  user_id : string;
  user_email : string;
  oldestCategorizedEmailTime : option Z;
  newestCategorizedEmailTime : option Z
}.

Record Db := mkDb {
  categories : list Category;
  newsletters : list Newsletter;
  users : list User
}.

(** The calls that leave the process, in the order they were made. *)
Inductive Event :=
| EvFindSenders (maxResults : nat) (pageToken : option string)
                (oldestDate newestDate : option Z)
| EvAiCategorizeSenders (senders : list (string * list string))
| EvAiCategorizeSender (sender : string) (previousEmails : list string)
| EvGetThreadsFromSender (sender : string) (maxResults : nat)
| EvRevalidatePath (path : string).

Record World := mkWorld {
  db : Db;
  trace : list Event
}.

Definition with_db (w : World) (d : Db) : World := mkWorld d (trace w).
Definition emit (w : World) (e : Event) : World :=
  mkWorld (db w) (trace w ++ [e]).

(** [{ error: string }] *)
Record ActionError := mkError { error : string }.

Record DateRange := mkRange {
  oldestDate : option Z;
  newestDate : option Z
}.

(** What [findSenders] resolves to. *)
Record SendersResult := mkSenders {
  sr_senders : SenderMap;
  sr_nextPageToken : option string;
  sr_dateRange : DateRange
}.

(** ** Promises *)

Inductive outcome (A : Type) :=
| Returned (a : A)
| Thrown (e : string).
Arguments Thrown {A} e.

Definition M (A : Type) := World -> outcome A * World.

Definition ret {A} (a : A) : M A := fun w => (Returned a, w).

Definition bind {A B} (m : M A) (k : A -> M B) : M B :=
  fun w => match m w with
           | (Returned a, w') => k a w'
           | (Thrown e, w') => (Thrown e, w')
           end.

Notation "x <- m ;; k" := (bind m (fun x => k))
  (at level 61, m at next level, right associativity).
Notation "m ;;; k" := (bind m (fun _ => k))
  (at level 61, right associativity).

(** [for (const x of l) { acc = body x acc }] with awaits in the body. *)
Fixpoint for_of {A S} (l : list A) (body : A -> S -> M S) (acc : S) : M S :=
  match l with
  | [] => ret acc
  | x :: rest => acc' <- body x acc ;; for_of rest body acc'
  end.

(** ** The collaborators *)

(** The mailbox client, which [getGmailClient] builds from the access token. *)
Record Gmail := mkGmail { gmail_accessToken : string }.

Definition getGmailClient (accessToken : string) : Gmail := mkGmail accessToken.

(** The imported functions whose code is elsewhere: each answers from the
    arguments and the world at the time of the call, and may throw. *)
Record Env := mkEnv {
  validateUserAndAiAccess :
    World -> string -> outcome (ActionError + User * string);
  findSenders :
    World -> Gmail -> string -> nat -> option string -> option Z -> option Z ->
    outcome SendersResult;
  aiCategorizeSenders :
    World -> User -> list (string * list string) -> list Category ->
    outcome (list SenderResult);
  aiCategorizeSender :
    World -> User -> string -> list string -> list Category ->
    outcome (option string);
  getThreadsFromSender :
    World -> Gmail -> string -> nat -> outcome (list (option ParsedMessage));
  isNewsletterSender : string -> bool;
  isReceiptSender : string -> bool;
  (** the identifier the database gives a row created in this state *)
  newCategoryId : Db -> string
}.

(** ** Persistence (the Prisma client) *)

Module Prisma.

Definition same_key (email userId : string) (n : Newsletter) : bool :=
  (nl_email n =? email) && (nl_userId n =? userId).

Definition has_name (name userId : string) (c : Category) : bool :=
  (cat_name c =? name) && (cat_userId c =? userId).

(** Modelled from the spec: [getUserCategories] of [@/utils/category.server]
    is not in the sources; the catalog of a user is the categories stored
    for that user. *)
Definition getUserCategories (userId : string) : M (list Category) :=
  fun w =>
    (Returned (filter (fun c => cat_userId c =? userId) (categories (db w))),
     w).

(** The client's error for a unique constraint that failed. *)
Definition P2002 : string :=
  "P2002: unique constraint failed on (name, userId)".

(** Modelled from the spec: the schema is not in the sources; a category
    name is unique within a user's categories, and creating a second one
    is the duplicate-name conflict, which the client throws. *)
Definition category_create (newId : Db -> string) (name userId : string)
  : M Category :=
  fun w =>
    let d := db w in
    if existsb (has_name name userId) (categories d)
    then (Thrown P2002, w)
    else
      let c := mkCategory (newId d) name None userId in
      (Returned c,
       with_db w (mkDb (categories d ++ [c]) (newsletters d) (users d))).

(** The row the upsert touches and the table after it: the row with the
    unique key is updated in place, a missing one is added. *)
Fixpoint upsert_row (email userId categoryId : string)
  (rows : list Newsletter) : Newsletter * list Newsletter :=
  match rows with
  | [] =>
      let n := mkNewsletter email userId (Some categoryId) in (n, [n])
  | r :: rest =>
      if same_key email userId r
      then
        let n := mkNewsletter (nl_email r) (nl_userId r) (Some categoryId) in
        (n, n :: rest)
      else
        let (n, rest') := upsert_row email userId categoryId rest in
        (n, r :: rest')
  end.

(** [prisma.newsletter.upsert({ where: { email_userId }, update, create })].
    The call is taken to resolve: a rejection by the client for another
    reason (a lost connection, a category id that no category has) is not
    modelled. *)
Definition newsletter_upsert (email userId categoryId : string)
  : M Newsletter :=
  fun w =>
    let d := db w in
    let (n, rows) := upsert_row email userId categoryId (newsletters d) in
    (Returned n, with_db w (mkDb (categories d) rows (users d))).

(** The selection [{ email, category: { name, description } }] of a row. *)
Record SenderWithCategory := mkExisting {
  email : string;
  category : option (string * option string)
}.

Definition select_category (d : Db) (n : Newsletter)
  : option (string * option string) :=
  match nl_categoryId n with
  | None => None
  | Some cid =>
      match find (fun c => cat_id c =? cid) (categories d) with
      | Some c => Some (cat_name c, cat_description c)
      | None => None
      end
  end.

(** [prisma.newsletter.findMany({ where: { email: { in }, userId }, select })].
    The rows come in the order of the table; the code asks for no order. *)
Definition newsletter_findMany (emails : list string) (userId : string)
  : M (list SenderWithCategory) :=
  fun w =>
    let d := db w in
    (Returned
       (map (fun n => mkExisting (nl_email n) (select_category d n))
          (filter (fun n => existsb (String.eqb (nl_email n)) emails
                            && (nl_userId n =? userId))
             (newsletters d))),
     w).

(** A nullable field in the [data] of an update: [undefined] skips the
    field, [null] clears it, a value is written. *)
Inductive Field :=
| Undefined
| Null
| Value (t : Z).

Definition write (f : Field) (stored : option Z) : option Z :=
  match f with
  | Undefined => stored
  | Null => None
  | Value t => Some t
  end.

Record UserUpdate := mkUserUpdate {
  set_newestCategorizedEmailTime : Field;
  set_oldestCategorizedEmailTime : Field
}.

Definition apply_update (data : UserUpdate) (u : User) : User :=
  mkUser (user_id u) (user_email u)
    (write (set_oldestCategorizedEmailTime data)
       (oldestCategorizedEmailTime u))
    (write (set_newestCategorizedEmailTime data)
       (newestCategorizedEmailTime u)).

Fixpoint update_first (id : string) (data : UserUpdate) (rows : list User)
  : option (list User) :=
  match rows with
  | [] => None
  | u :: rest =>
      if user_id u =? id then Some (apply_update data u :: rest)
      else match update_first id data rest with
           | Some rest' => Some (u :: rest')
           | None => None
           end
  end.

(** [prisma.user.update({ where: { id }, data })]; a missing record throws. *)
Definition user_update (id : string) (data : UserUpdate) : M unit :=
  fun w =>
    let d := db w in
    match update_first id data (users d) with
    | Some rows =>
        (Returned tt, with_db w (mkDb (categories d) (newsletters d) rows))
    | None => (Thrown "P2025: record to update not found", w)
    end.

Definition find_user (id : string) (d : Db) : option User :=
  find (fun u => user_id u =? id) (users d).

End Prisma.

(** [x ?? undefined] on a [Date | null]. *)
Definition nullish_undefined (x : option Z) : Prisma.Field :=
  match x with
  | Some t => Prisma.Value t
  | None => Prisma.Undefined
  end.

(** ** The pipeline *)

Section Pipeline.

Variable env : Env.

(** An awaited call to a collaborator: it is recorded, then it resolves or
    rejects. *)
Definition call {A} (e : Event) (answer : World -> outcome A) : M A :=
  fun w => (answer w, emit w e).

Definition personalEmailDomains : list string :=
  ["gmail.com"; "googlemail.com"; "yahoo.com"; "hotmail.com"; "outlook.com";
   "aol.com"].

(** [personalEmailDomains.some((domain) => sender.includes(`@${domain}>`))] *)
Definition hasPersonalEmailDomain (sender : string) : bool :=
  existsb (fun domain => includes sender ("@" ++ domain ++ ">")%string)
    personalEmailDomains.

(** The body of the [map] in [preCategorizeSendersWithStaticRules]. *)
Definition staticRule (sender : string) : SenderResult :=
  if hasPersonalEmailDomain sender
  then mkResult sender (Some defaultCategory_UNKNOWN_name)
  else if isNewsletterSender env sender
  then mkResult sender (Some defaultCategory_NEWSLETTER_name)
  else if isReceiptSender env sender
  then mkResult sender (Some defaultCategory_RECEIPT_name)
  else mkResult sender None.

Definition preCategorizeSendersWithStaticRules (senders : list string)
  : list SenderResult :=
  map staticRule senders.

Definition getCategories (userId : string)
  : M (ActionError + list Category) :=
  categories <- Prisma.getUserCategories userId ;;
  if Nat.eqb (length categories) 0
  then ret (inl (mkError "No categories found"))
  else ret (inr categories).

(** [{ newCategory, newsletter }] *)
Record Assigned := mkAssigned {
  newCategory : option Category;
  newsletter : Newsletter
}.

Definition updateSenderCategory (userId sender : string)
  (categories : list Category) (categoryName : string) : M Assigned :=
  resolved <-
    match find (fun c => cat_name c =? categoryName) categories with
    | Some category => ret (category, None)
    | None =>
        (* create category *)
        newCategory <-
          Prisma.category_create (newCategoryId env) categoryName userId ;;
        ret (newCategory, Some newCategory)
    end ;;
  let (category, newCategory) := resolved in
  (* save category *)
  newsletter <- Prisma.newsletter_upsert sender userId (cat_id category) ;;
  ret (mkAssigned newCategory newsletter).

(** The senders the batch classifier is asked about. *)
Definition sendersToCategorizeWithAi (categorizedSenders : list SenderResult)
  : list string :=
  map r_sender
    (filter (fun sender => negb (truthy (r_category sender)))
       categorizedSenders).

(** [senders: sendersToCategorizeWithAi.map(...)], the batch request. *)
Definition aiRequest (sendersWithSnippets : JsMap.t (list string))
  (categorizedSenders : list SenderResult) : list (string * list string) :=
  map (fun sender =>
         (sender,
          match JsMap.get sendersWithSnippets sender with
          | Some snippets => snippets
          | None => []
          end))
    (sendersToCategorizeWithAi categorizedSenders).

Definition categorizeWithAi (user : User)
  (sendersWithSnippets : JsMap.t (list string)) (categories : list Category)
  : M (list SenderResult) :=
  let categorizedSenders :=
    preCategorizeSendersWithStaticRules (JsMap.keys sendersWithSnippets) in
  let request := aiRequest sendersWithSnippets categorizedSenders in
  aiResults <-
    call (EvAiCategorizeSenders request)
      (fun w => aiCategorizeSenders env w user request categories) ;;
  ret (categorizedSenders ++ aiResults).

(** [sendersMap.get(sender)?.map((m) => m.snippet).filter(isDefined) || []] *)
Definition snippetsOf (sendersMap : SenderMap) (sender : string)
  : list string :=
  match JsMap.get sendersMap sender with
  | Some messages => filter_isDefined (map snippet messages)
  | None => []
  end.

Definition sendersToCategorize (senders : list string)
  (existingSenders : list Prisma.SenderWithCategory) : list string :=
  filter
    (fun sender =>
       negb (existsb (fun s => Prisma.email s =? sender) existingSenders))
    senders.

(** One turn of the loop over the results in [categorizeNewSenders]. *)
Definition saveResult (categories : list Category) (userId : string)
  (result : SenderResult) (categorizedCount : nat) : M nat :=
  match r_category result with
  | None => ret categorizedCount
  | Some categoryName =>
      if categoryName =? EmptyString then ret categorizedCount
      else
        updateSenderCategory userId (r_sender result) categories
          categoryName ;;;
        ret (categorizedCount + 1)
  end.

Definition categorizeNewSenders (senders : list string)
  (existingSenders : list Prisma.SenderWithCategory) (sendersMap : SenderMap)
  (user : User) (categories : list Category) (userId : string)
  : M (list SenderResult * nat) :=
  let sendersWithSnippets :=
    JsMap.of_entries
      (map (fun sender => (sender, snippetsOf sendersMap sender))
         (sendersToCategorize senders existingSenders)) in
  results <- categorizeWithAi user sendersWithSnippets categories ;;
  categorizedCount <- for_of results (saveResult categories userId) 0 ;;
  ret (results, categorizedCount).

Definition getPreviousEmails (gmail : Gmail) (sender : string)
  : M (list string) :=
  threadsFromSender <-
    call (EvGetThreadsFromSender sender 3)
      (fun w => getThreadsFromSender env w gmail sender 3) ;;
  ret (filter_isDefined
         (map (fun t => match t with
                        | Some m => snippet m
                        | None => None
                        end)
            threadsFromSender)).

(** [{ categoryId }], what [categorizeSender] resolves to. *)
Record SenderCategoryId := mkCategoryId { categoryId : option string }.

Definition categorizeSender (senderAddress : string) (user : User)
  (gmail : Gmail) : M SenderCategoryId :=
  categories <- Prisma.getUserCategories (user_id user) ;;
  if Nat.eqb (length categories) 0 then ret (mkCategoryId None)
  else
    previousEmails <- getPreviousEmails gmail senderAddress ;;
    aiResult <-
      call (EvAiCategorizeSender senderAddress previousEmails)
        (fun w =>
           aiCategorizeSender env w user senderAddress previousEmails
             categories) ;;
    match aiResult with
    | Some category =>
        assigned <-
          updateSenderCategory (user_id user) senderAddress categories
            category ;;
        ret (mkCategoryId (nl_categoryId (newsletter assigned)))
    | None =>
        (* logger.error *)
        ret (mkCategoryId None)
    end.

(** The evidence for a sender in [categorizeUnknownSenders]: the snippets at
    hand, or those of the sender's threads when there are none. *)
Definition previousEmailsOf (sendersMap : SenderMap) (gmail : Gmail)
  (sender : string) : M (list string) :=
  let previousEmails := snippetsOf sendersMap sender in
  if Nat.eqb (length previousEmails) 0
  then getPreviousEmails gmail sender
  else ret previousEmails.

(** One turn of the loop in [categorizeUnknownSenders]. *)
Definition categorizeUnknownSender (sendersMap : SenderMap) (gmail : Gmail)
  (user : User) (categories : list Category) (userId : string)
  (sender : SenderResult) (categorizedCount : nat) : M nat :=
  previousEmails <- previousEmailsOf sendersMap gmail (r_sender sender) ;;
  aiResult <-
    call (EvAiCategorizeSender (r_sender sender) previousEmails)
      (fun w =>
         aiCategorizeSender env w user (r_sender sender) previousEmails
           categories) ;;
  match aiResult with
  | Some category =>
      updateSenderCategory userId (r_sender sender) categories category ;;;
      ret (categorizedCount + 1)
  | None => ret categorizedCount
  end.

Definition categorizeUnknownSenders (unknownSenders : list SenderResult)
  (sendersMap : SenderMap) (gmail : Gmail) (user : User)
  (categories : list Category) (userId : string) : M nat :=
  for_of unknownSenders
    (categorizeUnknownSender sendersMap gmail user categories userId) 0.

Definition isUnknownSender (r : SenderResult) : bool :=
  negb (truthy (r_category r))
  || opt_eqb (r_category r) (Some defaultCategory_UNKNOWN_name)
  || opt_eqb (r_category r) (Some REQUEST_MORE_INFORMATION_CATEGORY).

Definition findAndPrepareSenders (gmail : Gmail) (accessToken : string)
  (oldestDate newestDate : option Z) (pageToken : option string)
  : M (list string * SendersResult * DateRange) :=
  sendersResult <-
    call (EvFindSenders 20 pageToken oldestDate newestDate)
      (fun w =>
         findSenders env w gmail accessToken 20 pageToken oldestDate
           newestDate) ;;
  let senders := uniq (JsMap.keys (sr_senders sendersResult)) in
  ret (senders, sendersResult, sr_dateRange sendersResult).

Definition getExistingSenders (senders : list string) (userId : string)
  : M (list Prisma.SenderWithCategory) :=
  Prisma.newsletter_findMany senders userId.

(** The input of the second pass: the results of the first pass and the
    stored senders, filtered by [isUnknownSender]. *)
Definition unknownSendersOf (results : list SenderResult)
  (existingSenders : list Prisma.SenderWithCategory) : list SenderResult :=
  filter isUnknownSender
    (results ++
     map (fun s =>
            mkResult (Prisma.email s) (option_map fst (Prisma.category s)))
       existingSenders).

(** [{ categorizedCount, nextPageToken }] *)
Record Categorized := mkCategorized {
  categorizedCount : nat;
  nextPageToken : option string
}.

Definition categorizeSenders (userId : string) (pageToken : option string)
  : M (ActionError + Categorized) :=
  userResult <- (fun w => (validateUserAndAiAccess env w userId, w)) ;;
  match userResult with
  | inl err => ret (inl err)
  | inr (user, accessToken) =>
      categoriesResult <- getCategories userId ;;
      match categoriesResult with
      | inl err => ret (inl err)
      | inr categories =>
          let gmail := getGmailClient accessToken in
          found <-
            findAndPrepareSenders gmail accessToken
              (oldestCategorizedEmailTime user)
              (newestCategorizedEmailTime user) pageToken ;;
          let '(senders, sendersResult, dateRange) := found in
          existingSenders <- getExistingSenders senders userId ;;
          (* First pass: Categorize new senders *)
          firstPass <-
            categorizeNewSenders senders existingSenders
              (sr_senders sendersResult) user categories userId ;;
          let (results, initialCount) := firstPass in
          (* Second pass: Re-categorize unknown senders *)
          let unknownSenders := unknownSendersOf results existingSenders in
          unknownCount <-
            categorizeUnknownSenders unknownSenders
              (sr_senders sendersResult) gmail user categories userId ;;
          (* Update user's categorized email time *)
          Prisma.user_update (user_id user)
            (Prisma.mkUserUpdate
               (nullish_undefined (newestDate dateRange))
               (nullish_undefined (oldestDate dateRange))) ;;;
          call (EvRevalidatePath "/smart-categories")
            (fun _ => Returned tt) ;;;
          ret (inr (mkCategorized (initialCount + unknownCount)
                      (sr_nextPageToken sendersResult)))
      end
  end.

End Pipeline.

(** ** Scenarios

    Concrete collaborators and stores on which the pipeline is run. *)

Module Scenario.

(** Heuristics that look for a word in the sender. *)
Definition looksLikeNewsletter (sender : string) : bool :=
  includes sender "newsletter".
Definition looksLikeReceipt (sender : string) : bool :=
  includes sender "receipt".

(** The validated user is the stored one. *)
Definition validate (w : World) (userId : string)
  : outcome (ActionError + User * string) :=
  match Prisma.find_user userId (db w) with
  | Some u => Returned (inr (u, "token"))
  | None => Returned (inl (mkError "Not logged in"))
  end.

(** Collaborators that find [found], answer the batch request with [batch]
    and a single-sender request with [single]; the mailbox has no further
    threads. *)
Definition collaborators (found : SendersResult)
  (batch : list SenderResult) (single : string -> outcome (option string))
  : Env :=
  mkEnv validate
    (fun _ _ _ _ _ _ _ => Returned found)
    (fun _ _ _ _ => Returned batch)
    (fun _ _ sender _ _ => single sender)
    (fun _ _ _ _ => Returned [])
    looksLikeNewsletter
    looksLikeReceipt
    (fun d => String (ascii_of_nat (48 + length (categories d))) "-category").

(** Collaborators that find nothing and never categorize. *)
Definition quiet : Env :=
  collaborators (mkSenders [] None (mkRange None None)) []
    (fun _ => Returned None).

(** The senders of the spec's example. *)
Definition exampleSenders : list string :=
  ["a@gmail.com"; "newsletter@list.example"; "receipts@store.example"].

Definition alice : User := mkUser "u1" "alice@corp.example" (Some 10%Z) (Some 20%Z).

Definition personal : Category := mkCategory "c1" "Personal" None "u1".

Definition store : Db := mkDb [personal] [] [alice].

Definition start : World := mkWorld store [].

(** A world in which alice has no category yet. *)
Definition withoutCategories : World := mkWorld (mkDb [] [] [alice]) [].

Definition nothingFound (range : DateRange) : SendersResult :=
  mkSenders [] None range.

(** Collaborators of a run that finds no sender and observes [range]. *)
Definition observing (range : DateRange) : Env :=
  collaborators (nothingFound range) [] (fun _ => Returned None).

(** An engine that is down for one sender and answers "Personal" for the
    others. *)
Definition downFor (broken : string) : Env :=
  collaborators (nothingFound (mkRange None None)) []
    (fun sender =>
       if (sender =? broken)%string then Thrown "engine unavailable"
       else Returned (Some "Personal")).

Definition oneFound (sender : string) : SendersResult :=
  mkSenders [(sender, [mkMessage (Some "hello")])] None
    (mkRange None None).

(** A run that finds one sender, for which the batch classifier asks for
    more information and the single-sender classifier has no answer. *)
Definition insufficient : Env :=
  collaborators (oneFound "x@corp.example")
    [mkResult "x@corp.example" (Some REQUEST_MORE_INFORMATION_CATEGORY)]
    (fun _ => Returned None).

(** A page with two senders that look like newsletters. *)
Definition twoNewsletters : SendersResult :=
  mkSenders
    [("newsletter@a.example", [mkMessage (Some "issue 1")]);
     ("newsletter@b.example", [mkMessage (Some "weekly")])]
    None (mkRange None None).

(** A store whose catalog already has "Newsletter", and a stale copy of the
    catalog read before that category was created. *)
Definition newsletterCategory : Category :=
  mkCategory "c2" "Newsletter" None "u1".
Definition laterStore : World :=
  mkWorld (mkDb [personal; newsletterCategory] [] [alice]) [].
Definition staleCatalog : list Category := [personal].

(** A world in which one sender is already assigned to "Personal". *)
Definition assigned : World :=
  mkWorld
    (mkDb [personal] [mkNewsletter "y@corp.example" "u1" (Some "c1")] [alice])
    [].

End Scenario.

(** ** What a stage leaves alone *)

(** The trace and the user table are the same in both worlds. *)
Definition keeps_users (w w' : World) : Prop :=
  trace w' = trace w /\ users (db w') = users (db w).

(** The user table is the same in both worlds. *)
Definition same_users (w w' : World) : Prop := users (db w') = users (db w).

(** ** Reading a trace *)

(** The senders the single-sender classifier was asked about, in order. *)
Definition asked (events : list Event) : list string :=
  flat_map (fun e => match e with
                     | EvAiCategorizeSender sender _ => [sender]
                     | _ => []
                     end) events.

(** An event of the second pass: a question to the single-sender classifier,
    or a fetch of at most three threads of a sender of which the page holds
    no snippet. *)
Definition fallbackEvent (sendersMap : SenderMap) (e : Event) : Prop :=
  match e with
  | EvAiCategorizeSender _ _ => True
  | EvGetThreadsFromSender sender maxResults =>
      maxResults = 3 /\ snippetsOf sendersMap sender = []
  | _ => False
  end.

(** No static rule matches the sender. *)
Definition noStaticRule (env : Env) (sender : string) : bool :=
  negb (hasPersonalEmailDomain sender)
  && negb (isNewsletterSender env sender)
  && negb (isReceiptSender env sender).

(** The sender has an assignment row for the user. *)
Definition hasAssignment (sender userId : string) (w : World) : Prop :=
  existsb (Prisma.same_key sender userId) (newsletters (db w)) = true.

(** No stage takes an assignment row away. *)
Definition keeps_assignments (w w' : World) : Prop :=
  forall sender userId, hasAssignment sender userId w ->
                        hasAssignment sender userId w'.

(** The later world has the trace of the earlier one and then events that
    all satisfy [P]. *)
Definition adds (P : Event -> Prop) (w w' : World) : Prop :=
  exists events, trace w' = trace w ++ events /\ Forall P events.

(** The assignment rows and the categories of every other user are the same
    in both worlds. *)
Definition isolates (userId : string) (w w' : World) : Prop :=
  (forall row, nl_userId row <> userId ->
               In row (newsletters (db w')) <-> In row (newsletters (db w))) /\
  (forall c, cat_userId c <> userId ->
             In c (categories (db w')) <-> In c (categories (db w))).

(** * Properties *)

(** ** Running the monad *)

Lemma bind_returned A B (m : M A) (k : A -> M B) w a w' :
  m w = (Returned a, w') -> bind m k w = k a w'.
Proof. intros H; unfold bind; now rewrite H. Qed.

Lemma bind_thrown A B (m : M A) (k : A -> M B) w e w' :
  m w = (Thrown e, w') -> bind m k w = (Thrown e, w').
Proof. intros H; unfold bind; now rewrite H. Qed.

(** A rejected turn ends a [for ... of] loop: the rest is not run. *)
Lemma for_of_thrown A S (body : A -> S -> M S) x rest acc w e w' :
  body x acc w = (Thrown e, w') ->
  for_of (x :: rest) body acc w = (Thrown e, w').
Proof. intros H; simpl; now apply bind_thrown. Qed.

Lemma for_of_returned A S (body : A -> S -> M S) x rest acc w acc' w' :
  body x acc w = (Returned acc', w') ->
  for_of (x :: rest) body acc w = for_of rest body acc' w'.
Proof. intros H; simpl; now apply bind_returned. Qed.

(** A relation between the worlds before and after that every turn keeps is
    kept by the loop. *)
Lemma for_of_keeps A S (R : World -> World -> Prop) (body : A -> S -> M S) :
  (forall w, R w w) ->
  (forall w1 w2 w3, R w1 w2 -> R w2 w3 -> R w1 w3) ->
  (forall x acc w, R w (snd (body x acc w))) ->
  forall l acc w, R w (snd (for_of l body acc w)).
Proof.
  intros Hrefl Htrans Hbody l.
  induction l as [|x rest IH]; intros acc w; simpl.
  - apply Hrefl.
  - unfold bind. specialize (Hbody x acc w).
    destruct (body x acc w) as [[acc'|e] w']; simpl in *.
    + eapply Htrans; [exact Hbody | apply IH].
    + exact Hbody.
Qed.

(** ** What the persistence calls leave alone *)

Lemma keeps_users_refl w : keeps_users w w.
Proof. now split. Qed.

Lemma keeps_users_trans w1 w2 w3 :
  keeps_users w1 w2 -> keeps_users w2 w3 -> keeps_users w1 w3.
Proof. intros [A B] [C D]; split; congruence. Qed.

Lemma updateSenderCategory_keeps_users env userId sender cats name w :
  keeps_users w (snd (updateSenderCategory env userId sender cats name w)).
Proof.
  unfold updateSenderCategory, bind, ret, Prisma.category_create,
    Prisma.newsletter_upsert, keeps_users.
  destruct (find _ cats) as [c|]; simpl.
  - destruct (Prisma.upsert_row _ _ _ _); simpl; auto.
  - destruct (existsb _ _); simpl; auto.
    destruct (Prisma.upsert_row _ _ _ _); simpl; auto.
Qed.

Lemma saveResult_keeps_users env cats userId r n w :
  keeps_users w (snd (saveResult env cats userId r n w)).
Proof.
  unfold saveResult.
  destruct (r_category r) as [name|]; [|apply keeps_users_refl].
  destruct (name =? EmptyString)%string; [apply keeps_users_refl|].
  unfold bind.
  pose proof (updateSenderCategory_keeps_users env userId (r_sender r) cats name w) as H.
  destruct (updateSenderCategory _ _ _ _ _ w) as [[a|e] w']; simpl in *; exact H.
Qed.

(** ** The static rules *)

(** The rules in their order: the first that matches decides. *)
Lemma staticRule_first_match env sender :
  staticRule env sender =
  mkResult sender
    (if hasPersonalEmailDomain sender then Some defaultCategory_UNKNOWN_name
     else if isNewsletterSender env sender
          then Some defaultCategory_NEWSLETTER_name
          else if isReceiptSender env sender
               then Some defaultCategory_RECEIPT_name
               else None).
Proof.
  unfold staticRule.
  destruct (hasPersonalEmailDomain sender); [reflexivity|].
  destruct (isNewsletterSender env sender); [reflexivity|].
  destruct (isReceiptSender env sender); reflexivity.
Qed.

Lemma staticRule_sender env sender : r_sender (staticRule env sender) = sender.
Proof. rewrite staticRule_first_match; reflexivity. Qed.

(** C7, as stated, fails: a sender with a personal email domain that both
    heuristics match is deferred as "Unknown", whatever the heuristics are,
    and not categorized as "Newsletter". *)
Lemma personal_domain_precedes_newsletter :
  isNewsletterSender Scenario.quiet "newsletter receipts <deals@gmail.com>"
  = true /\
  isReceiptSender Scenario.quiet "newsletter receipts <deals@gmail.com>"
  = true /\
  r_category (staticRule Scenario.quiet "newsletter receipts <deals@gmail.com>")
  = Some "Unknown" /\
  ~ (exists env,
        r_category (staticRule env "newsletter receipts <deals@gmail.com>")
        = Some defaultCategory_NEWSLETTER_name).
Proof.
  repeat split; try reflexivity.
  intros [env H]. rewrite staticRule_first_match in H.
  change (hasPersonalEmailDomain "newsletter receipts <deals@gmail.com>")
    with true in H.
  discriminate H.
Qed.

(** C7, amended: a sender that matches both the newsletter and the receipt
    heuristic is categorized as "Newsletter" unless the personal-domain rule,
    which comes first, matches it; then it is "Unknown". *)
Theorem staticRule_newsletter_before_receipt env sender :
  isNewsletterSender env sender = true ->
  isReceiptSender env sender = true ->
  r_category (staticRule env sender) =
  if hasPersonalEmailDomain sender then Some defaultCategory_UNKNOWN_name
  else Some defaultCategory_NEWSLETTER_name.
Proof.
  intros HN _. rewrite staticRule_first_match; simpl.
  now rewrite HN.
Qed.

Lemma staticRule_newsletter_before_receipt_witness :
  r_category
    (staticRule Scenario.quiet "newsletter receipts <deals@shop.example>") =
  if hasPersonalEmailDomain "newsletter receipts <deals@shop.example>"
  then Some defaultCategory_UNKNOWN_name
  else Some defaultCategory_NEWSLETTER_name.
Proof.
  apply (@staticRule_newsletter_before_receipt Scenario.quiet
           "newsletter receipts <deals@shop.example>"); reflexivity.
Defined.

(** ** The first pass *)

(** Saving the results makes no external call and leaves the users alone. *)
Lemma save_loop_keeps_users env cats userId results n w :
  keeps_users w (snd (for_of results (saveResult env cats userId) n w)).
Proof.
  apply for_of_keeps.
  - apply keeps_users_refl.
  - apply keeps_users_trans.
  - intros; apply saveResult_keeps_users.
Qed.

(** The first pass makes exactly one external call, the batch request for
    the senders the static rules left without a category. *)
Lemma categorizeNewSenders_trace env senders existing sendersMap user cats
  userId w :
  let sendersWithSnippets :=
    JsMap.of_entries
      (map (fun sender => (sender, snippetsOf sendersMap sender))
         (sendersToCategorize senders existing)) in
  trace (snd (categorizeNewSenders env senders existing sendersMap user cats
                userId w)) =
  trace w ++
  [EvAiCategorizeSenders
     (aiRequest sendersWithSnippets
        (preCategorizeSendersWithStaticRules env
           (JsMap.keys sendersWithSnippets)))].
Proof.
  intros sws. unfold categorizeNewSenders, categorizeWithAi.
  fold sws. unfold bind at 1. unfold bind at 1. unfold call.
  destruct (aiCategorizeSenders env w user _ cats) as [aiResults|e]; simpl.
  - unfold bind, ret.
    pose proof (save_loop_keeps_users env cats userId
                  (preCategorizeSendersWithStaticRules env (JsMap.keys sws)
                   ++ aiResults) 0
                  (emit w (EvAiCategorizeSenders
                     (aiRequest sws
                        (preCategorizeSendersWithStaticRules env
                           (JsMap.keys sws)))))) as [Ht _].
    destruct (for_of _ _ _ _) as [[n|e] w']; simpl in *; exact Ht.
  - reflexivity.
Qed.

(** C3, the code at the example's input: the comment on the rule says that
    a sender at gmail.com is marked "Unknown", but the rule looks for the
    domain followed by a closing angle bracket and misses the bare address:
    no heuristics make the static rules resolve "a@gmail.com" to "Unknown";
    with the word heuristics the three senders get no category, "Newsletter"
    and "Receipt". *)
Lemma a_gmail_com_is_not_deferred :
  ~ (exists env,
        r_category (staticRule env "a@gmail.com")
        = Some defaultCategory_UNKNOWN_name) /\
  map r_category
    (preCategorizeSendersWithStaticRules Scenario.quiet
       Scenario.exampleSenders)
  = [None; Some "Newsletter"; Some "Receipt"].
Proof.
  split; [|reflexivity].
  intros [env H]. rewrite staticRule_first_match in H.
  change (hasPersonalEmailDomain "a@gmail.com") with false in H.
  simpl in H.
  destruct (isNewsletterSender env "a@gmail.com"); [discriminate H|].
  destruct (isReceiptSender env "a@gmail.com"); discriminate H.
Qed.

(** What the code does with the three senders of the example under any
    heuristics that take "newsletter@list.example" for a newsletter,
    "receipts@store.example" for a receipt and not a newsletter, and
    "a@gmail.com" for neither: the bare address gets no category, and so it
    is the one sender named in the batch request. *)
Lemma static_rules_example env sendersMap user cats userId w :
  isNewsletterSender env "a@gmail.com" = false ->
  isReceiptSender env "a@gmail.com" = false ->
  isNewsletterSender env "newsletter@list.example" = true ->
  isNewsletterSender env "receipts@store.example" = false ->
  isReceiptSender env "receipts@store.example" = true ->
  preCategorizeSendersWithStaticRules env Scenario.exampleSenders =
  [mkResult "a@gmail.com" None;
   mkResult "newsletter@list.example" (Some "Newsletter");
   mkResult "receipts@store.example" (Some "Receipt")] /\
  trace (snd (categorizeNewSenders env Scenario.exampleSenders [] sendersMap
                user cats userId w)) =
  trace w ++
  [EvAiCategorizeSenders [("a@gmail.com", snippetsOf sendersMap "a@gmail.com")]].
Proof.
  intros Ha1 Ha2 Hn Hr1 Hr2.
  assert (Hpre : preCategorizeSendersWithStaticRules env Scenario.exampleSenders =
          [mkResult "a@gmail.com" None;
           mkResult "newsletter@list.example" (Some "Newsletter");
           mkResult "receipts@store.example" (Some "Receipt")]).
  { unfold preCategorizeSendersWithStaticRules, Scenario.exampleSenders.
    simpl map. rewrite !staticRule_first_match.
    change (hasPersonalEmailDomain "a@gmail.com") with false.
    change (hasPersonalEmailDomain "newsletter@list.example") with false.
    change (hasPersonalEmailDomain "receipts@store.example") with false.
    cbv iota. rewrite Ha1, Ha2, Hn, Hr1, Hr2. reflexivity. }
  split; [exact Hpre|].
  rewrite categorizeNewSenders_trace.
  change (JsMap.keys
            (JsMap.of_entries
               (map (fun sender => (sender, snippetsOf sendersMap sender))
                  (sendersToCategorize Scenario.exampleSenders []))))
    with Scenario.exampleSenders.
  rewrite Hpre. reflexivity.
Qed.

Lemma static_rules_example_witness :
  preCategorizeSendersWithStaticRules Scenario.quiet Scenario.exampleSenders =
  [mkResult "a@gmail.com" None;
   mkResult "newsletter@list.example" (Some "Newsletter");
   mkResult "receipts@store.example" (Some "Receipt")] /\
  trace (snd (categorizeNewSenders Scenario.quiet Scenario.exampleSenders []
                [] Scenario.alice [Scenario.personal] "u1" Scenario.start)) =
  trace Scenario.start ++
  [EvAiCategorizeSenders [("a@gmail.com", snippetsOf [] "a@gmail.com")]].
Proof.
  apply (@static_rules_example Scenario.quiet [] Scenario.alice
           [Scenario.personal] "u1" Scenario.start); reflexivity.
Defined.

(** ** Deduplication *)

Lemma JsMap_keys_set V (m : JsMap.t V) k v s :
  In s (JsMap.keys (JsMap.set m k v)) -> s = k \/ In s (JsMap.keys m).
Proof.
  unfold JsMap.keys. induction m as [|[k' v'] rest IH]; simpl.
  - intros [H|[]]; auto.
  - destruct (k' =? k)%string; simpl.
    + intros [H|H]; auto.
    + intros [H|H]; auto. destruct (IH H); auto.
Qed.

Lemma JsMap_keys_fold V (entries : list (string * V)) :
  forall (m : JsMap.t V) s,
    In s (JsMap.keys (fold_left (fun m kv => JsMap.set m (fst kv) (snd kv))
                        entries m)) ->
    In s (JsMap.keys m) \/ In s (map fst entries).
Proof.
  induction entries as [|[k v] rest IH]; simpl; intros m s H.
  - now left.
  - destruct (IH _ _ H) as [H1|H1]; auto.
    destruct (JsMap_keys_set _ _ _ _ H1); auto.
Qed.

(** The keys of [new Map(entries)] are keys of the entries. *)
Lemma JsMap_keys_of_entries V (entries : list (string * V)) s :
  In s (JsMap.keys (JsMap.of_entries entries)) -> In s (map fst entries).
Proof.
  intros H. destruct (JsMap_keys_fold _ _ _ H) as [[]|H1]. exact H1.
Qed.

(** The batch request asks about senders the static rules were given. *)
Lemma aiRequest_senders env sws keys s :
  In s (map fst (aiRequest sws (preCategorizeSendersWithStaticRules env keys))) ->
  In s keys.
Proof.
  unfold aiRequest, sendersToCategorizeWithAi,
    preCategorizeSendersWithStaticRules.
  rewrite map_map; simpl. rewrite in_map_iff.
  intros [r [Hs Hr]]. apply in_map_iff in Hr as [res [Hres Hr]].
  apply filter_In in Hr as [Hr _].
  apply in_map_iff in Hr as [x [Hx Hin]]. subst.
  now rewrite staticRule_sender.
Qed.

(** A sender with a stored assignment is not among the senders to
    categorize. *)
Lemma sendersToCategorize_new senders existing s :
  In s (sendersToCategorize senders existing) ->
  In s senders /\ ~ In s (map Prisma.email existing).
Proof.
  unfold sendersToCategorize. rewrite filter_In.
  intros [Hin Hno]. split; [exact Hin|].
  intros Hex. apply in_map_iff in Hex as [x [Hx Hxin]].
  apply negb_true_iff in Hno.
  assert (existsb (fun s0 => (Prisma.email s0 =? s)%string) existing = true).
  { apply existsb_exists. exists x. split; [exact Hxin|].
    now apply String.eqb_eq. }
  congruence.
Qed.

(** The lookup returns every stored assignment of the user whose sender was
    discovered. *)
Lemma getExistingSenders_complete senders userId w row :
  In row (newsletters (db w)) ->
  nl_userId row = userId ->
  In (nl_email row) senders ->
  exists existing category,
    getExistingSenders senders userId w = (Returned existing, w) /\
    In (Prisma.mkExisting (nl_email row) category) existing.
Proof.
  intros Hrow Huser Hsender.
  unfold getExistingSenders, Prisma.newsletter_findMany.
  eexists. exists (Prisma.select_category (db w) row).
  split; [reflexivity|].
  apply in_map_iff. exists row. split; [reflexivity|].
  apply filter_In. split; [exact Hrow|].
  apply andb_true_iff. split.
  - apply existsb_exists. exists (nl_email row).
    split; [exact Hsender|apply String.eqb_refl].
  - now apply String.eqb_eq.
Qed.

(** C8: the first pass, given the discovered senders and what the lookup of
    their stored assignments returned, adds one batch request to the trace,
    and no sender with a stored assignment for the user, whatever its
    category, is named in it. *)
Theorem stored_senders_skip_batch env senders sendersMap user cats userId w
  existing row :
  getExistingSenders senders userId w = (Returned existing, w) ->
  In row (newsletters (db w)) ->
  nl_userId row = userId ->
  exists request,
    trace (snd (categorizeNewSenders env senders existing sendersMap user
                  cats userId w))
    = trace w ++ [EvAiCategorizeSenders request] /\
    ~ In (nl_email row) (map fst request).
Proof.
  intros Hlookup Hrow Huser.
  eexists. split; [apply categorizeNewSenders_trace|].
  intros Hs.
  apply aiRequest_senders in Hs. apply JsMap_keys_of_entries in Hs.
  rewrite map_map in Hs; simpl in Hs. rewrite map_id in Hs.
  apply sendersToCategorize_new in Hs as [Hsender Hno].
  destruct (@getExistingSenders_complete senders userId w row Hrow Huser
              Hsender)
    as (existing' & category & Hlookup' & Hex).
  rewrite Hlookup in Hlookup'. injection Hlookup' as <-.
  apply Hno. apply in_map_iff.
  now exists (Prisma.mkExisting (nl_email row) category).
Qed.

Lemma stored_senders_skip_batch_witness :
  exists request,
    trace (snd (categorizeNewSenders Scenario.quiet
                  ["x@corp.example"; "y@corp.example"]
                  [Prisma.mkExisting "y@corp.example"
                     (Some ("Personal", None))]
                  [] Scenario.alice [Scenario.personal] "u1"
                  Scenario.assigned))
    = trace Scenario.assigned ++ [EvAiCategorizeSenders request] /\
    ~ In (nl_email (mkNewsletter "y@corp.example" "u1" (Some "c1")))
        (map fst request).
Proof.
  apply (@stored_senders_skip_batch Scenario.quiet
           ["x@corp.example"; "y@corp.example"] [] Scenario.alice
           [Scenario.personal] "u1" Scenario.assigned
           [Prisma.mkExisting "y@corp.example" (Some ("Personal", None))]
           (mkNewsletter "y@corp.example" "u1" (Some "c1"))).
  - reflexivity.
  - simpl; auto.
  - reflexivity.
Defined.

(** ** A user without categories *)

(** C9: when the user's catalog is empty, [categorizeSender] resolves to an
    undefined category id and leaves the world as it was (no call to the
    engine or the mailbox, no write), while [categorizeSenders] resolves to
    an error value: the one of the access check, or "No categories found". *)
Theorem empty_catalog env senderAddress user gmail pageToken w :
  Prisma.getUserCategories (user_id user) w = (Returned [], w) ->
  categorizeSender env senderAddress user gmail w
  = (Returned (mkCategoryId None), w) /\
  forall r,
    validateUserAndAiAccess env w (user_id user) = Returned r ->
    categorizeSenders env (user_id user) pageToken w
    = (Returned (inl match r with
                     | inl err => err
                     | inr _ => mkError "No categories found"
                     end), w).
Proof.
  intros Hcat. split.
  - unfold categorizeSender.
    erewrite bind_returned; [|exact Hcat]. reflexivity.
  - intros r Hr. unfold categorizeSenders.
    unfold bind at 1. rewrite Hr.
    destruct r as [err|[u tok]]; [reflexivity|].
    unfold getCategories.
    unfold bind at 1. unfold bind at 1. rewrite Hcat. reflexivity.
Qed.

Lemma empty_catalog_witness :
  categorizeSender Scenario.quiet "x@corp.example" Scenario.alice
    (getGmailClient "token") Scenario.withoutCategories
  = (Returned (mkCategoryId None), Scenario.withoutCategories) /\
  forall r,
    validateUserAndAiAccess Scenario.quiet Scenario.withoutCategories
      (user_id Scenario.alice) = Returned r ->
    categorizeSenders Scenario.quiet (user_id Scenario.alice) None
      Scenario.withoutCategories
    = (Returned (inl match r with
                     | inl err => err
                     | inr _ => mkError "No categories found"
                     end), Scenario.withoutCategories).
Proof.
  apply (@empty_catalog Scenario.quiet "x@corp.example" Scenario.alice
           (getGmailClient "token") None Scenario.withoutCategories).
  reflexivity.
Defined.

(** ** The watermark *)

Lemma same_users_refl w : same_users w w.
Proof. reflexivity. Qed.

Lemma same_users_trans w1 w2 w3 :
  same_users w1 w2 -> same_users w2 w3 -> same_users w1 w3.
Proof. unfold same_users; congruence. Qed.

Lemma keeps_users_same w w' : keeps_users w w' -> same_users w w'.
Proof. now intros [_ H]. Qed.

Lemma getPreviousEmails_same_users env gmail sender w :
  same_users w (snd (getPreviousEmails env gmail sender w)).
Proof.
  unfold getPreviousEmails, bind, call, ret.
  destruct (getThreadsFromSender env w gmail sender 3); reflexivity.
Qed.

Lemma categorizeUnknownSender_same_users env sendersMap gmail user cats userId
  sender n w :
  same_users w
    (snd (categorizeUnknownSender env sendersMap gmail user cats userId sender
            n w)).
Proof.
  unfold categorizeUnknownSender.
  set (fetch := previousEmailsOf env sendersMap gmail (r_sender sender)).
  assert (Hfetch : same_users w (snd (fetch w))).
  { unfold fetch, previousEmailsOf. destruct (Nat.eqb _ 0).
    - apply getPreviousEmails_same_users.
    - reflexivity. }
  unfold bind at 1.
  destruct (fetch w) as [[previousEmails|e] w1]; simpl in Hfetch;
    [|exact Hfetch].
  unfold bind at 1, call.
  destruct (aiCategorizeSender env w1 user _ previousEmails cats)
    as [[category|]|e]; simpl; try exact Hfetch.
  unfold bind.
  pose proof (updateSenderCategory_keeps_users env userId (r_sender sender)
                cats category
                (emit w1 (EvAiCategorizeSender (r_sender sender)
                            previousEmails))) as [_ Hu].
  destruct (updateSenderCategory _ _ _ _ _ _) as [[a|e] w2]; simpl in *;
    unfold same_users in *; congruence.
Qed.

Lemma categorizeUnknownSenders_same_users env unknownSenders sendersMap gmail
  user cats userId w :
  same_users w
    (snd (categorizeUnknownSenders env unknownSenders sendersMap gmail user
            cats userId w)).
Proof.
  unfold categorizeUnknownSenders. apply for_of_keeps.
  - apply same_users_refl.
  - apply same_users_trans.
  - intros; apply categorizeUnknownSender_same_users.
Qed.

Lemma categorizeNewSenders_same_users env senders existing sendersMap user
  cats userId w :
  same_users w
    (snd (categorizeNewSenders env senders existing sendersMap user cats
            userId w)).
Proof.
  unfold categorizeNewSenders, categorizeWithAi.
  unfold bind at 1. unfold bind at 1. unfold call.
  destruct (aiCategorizeSenders env w user _ cats) as [aiResults|e]; simpl;
    [|reflexivity].
  unfold bind, ret.
  match goal with
  | |- context [for_of ?l ?b ?n ?w0] =>
      pose proof (keeps_users_same (save_loop_keeps_users env cats userId l n w0))
        as H;
      destruct (for_of l b n w0) as [[k|e] w']
  end; simpl in *; exact H.
Qed.

(** Updating a stored user rewrites that row and no other. *)
Lemma update_first_find id data rows :
  match find (fun u => user_id u =? id)%string rows with
  | Some u =>
      exists rows',
        Prisma.update_first id data rows = Some rows' /\
        find (fun u => user_id u =? id)%string rows'
        = Some (Prisma.apply_update data u)
  | None => Prisma.update_first id data rows = None
  end.
Proof.
  induction rows as [|u rest IH]; simpl; [reflexivity|].
  destruct (user_id u =? id)%string eqn:E.
  - eexists; split; [reflexivity|]. simpl. now rewrite E.
  - destruct (find _ rest) as [v|].
    + destruct IH as [rows' [Hup Hfind]]. rewrite Hup.
      eexists; split; [reflexivity|]. simpl. now rewrite E.
    + now rewrite IH.
Qed.

Lemma bind_inv A B (m : M A) (k : A -> M B) w b w' :
  bind m k w = (Returned b, w') ->
  exists a w1, m w = (Returned a, w1) /\ k a w1 = (Returned b, w').
Proof.
  unfold bind. destruct (m w) as [[a|e] w1]; intros H.
  - now exists a, w1.
  - discriminate H.
Qed.

(** ** One run, stage by stage *)

(** A run that gets past the access check and the mailbox and resolves to a
    count went through the two passes, the watermark write and the
    revalidation, in this order. *)
Lemma categorizeSenders_stages env userId pageToken w user tok sr res w' :
  validateUserAndAiAccess env w userId = Returned (inr (user, tok)) ->
  findSenders env w (getGmailClient tok) tok 20 pageToken
    (oldestCategorizedEmailTime user) (newestCategorizedEmailTime user)
  = Returned sr ->
  categorizeSenders env userId pageToken w = (Returned (inr res), w') ->
  let cats := filter (fun c => cat_userId c =? userId)%string
                (categories (db w)) in
  let senders := uniq (JsMap.keys (sr_senders sr)) in
  let w1 := emit w (EvFindSenders 20 pageToken
                      (oldestCategorizedEmailTime user)
                      (newestCategorizedEmailTime user)) in
  exists existing results initialCount w3 unknownCount w4 w5,
    getExistingSenders senders userId w1 = (Returned existing, w1) /\
    categorizeNewSenders env senders existing (sr_senders sr) user cats
      userId w1 = (Returned (results, initialCount), w3) /\
    categorizeUnknownSenders env (unknownSendersOf results existing)
      (sr_senders sr) (getGmailClient tok) user cats userId w3
    = (Returned unknownCount, w4) /\
    Prisma.user_update (user_id user)
      (Prisma.mkUserUpdate
         (nullish_undefined (newestDate (sr_dateRange sr)))
         (nullish_undefined (oldestDate (sr_dateRange sr)))) w4 = (Returned tt, w5) /\
    w' = emit w5 (EvRevalidatePath "/smart-categories") /\
    res = mkCategorized (initialCount + unknownCount) (sr_nextPageToken sr).
Proof.
  intros Hv Hf Hrun. unfold categorizeSenders in Hrun.
  unfold bind at 1 in Hrun. rewrite Hv in Hrun.
  apply bind_inv in Hrun as [cr [w0 [Hcr Hrun]]].
  unfold getCategories, Prisma.getUserCategories, bind, ret in Hcr.
  destruct (Nat.eqb _ 0) in Hcr; injection Hcr as <- <-; [discriminate Hrun|].
  apply bind_inv in Hrun as [found [w1 [Hfound Hrun]]].
  unfold findAndPrepareSenders, bind, call, ret in Hfound.
  rewrite Hf in Hfound. injection Hfound as <- <-.
  apply bind_inv in Hrun as [existing [w2 [Hex Hrun]]].
  assert (w2 = emit w (EvFindSenders 20 pageToken
                         (oldestCategorizedEmailTime user)
                         (newestCategorizedEmailTime user))) as ->.
  { unfold getExistingSenders, Prisma.newsletter_findMany in Hex.
    now injection Hex. }
  apply bind_inv in Hrun as [[results initialCount] [w3 [Hfirst Hrun]]].
  apply bind_inv in Hrun as [unknownCount [w4 [Hsecond Hrun]]].
  apply bind_inv in Hrun as [[] [w5 [Hupd Hrun]]].
  apply bind_inv in Hrun as [[] [w6 [Hrev Hrun]]].
  unfold call in Hrev. injection Hrev as <-.
  unfold ret in Hrun. injection Hrun as <- <-.
  exists existing, results, initialCount, w3, unknownCount, w4, w5.
  repeat split; assumption.
Qed.

(** After such a run the stored user is the one stored before with the
    observed bounds written over it. *)
Lemma categorizeSenders_watermark env userId pageToken w user tok sr res w' :
  validateUserAndAiAccess env w userId = Returned (inr (user, tok)) ->
  findSenders env w (getGmailClient tok) tok 20 pageToken
    (oldestCategorizedEmailTime user) (newestCategorizedEmailTime user)
  = Returned sr ->
  categorizeSenders env userId pageToken w = (Returned (inr res), w') ->
  exists u,
    Prisma.find_user (user_id user) (db w) = Some u /\
    Prisma.find_user (user_id user) (db w') =
    Some (Prisma.apply_update
            (Prisma.mkUserUpdate
               (nullish_undefined (newestDate (sr_dateRange sr)))
               (nullish_undefined (oldestDate (sr_dateRange sr)))) u).
Proof.
  intros Hv Hf Hrun.
  destruct (@categorizeSenders_stages _ _ _ _ _ _ _ _ _ Hv Hf Hrun)
    as (existing & results & n1 & w3 & n2 & w4 & w5
        & _ & Hfirst & Hsecond & Hupd & -> & _).
  assert (Hu : users (db w4) = users (db w)).
  { pose proof (categorizeNewSenders_same_users env
                  (uniq (JsMap.keys (sr_senders sr))) existing (sr_senders sr)
                  user
                  (filter (fun c => cat_userId c =? userId)%string
                     (categories (db w)))
                  userId
                  (emit w (EvFindSenders 20 pageToken
                             (oldestCategorizedEmailTime user)
                             (newestCategorizedEmailTime user)))) as H1.
    rewrite Hfirst in H1. simpl in H1.
    pose proof (categorizeUnknownSenders_same_users env
                  (unknownSendersOf results existing) (sr_senders sr)
                  (getGmailClient tok) user
                  (filter (fun c => cat_userId c =? userId)%string
                     (categories (db w)))
                  userId w3) as H2.
    rewrite Hsecond in H2. simpl in H2.
    unfold same_users in *. simpl in H1. congruence. }
  unfold Prisma.user_update in Hupd.
  pose proof (update_first_find (user_id user)
                (Prisma.mkUserUpdate
                   (nullish_undefined (newestDate (sr_dateRange sr)))
                   (nullish_undefined (oldestDate (sr_dateRange sr))))
                (users (db w4))) as Hfind.
  unfold Prisma.find_user. simpl. rewrite <- Hu.
  destruct (find _ (users (db w4))) as [u|].
  - destruct Hfind as [rows' [Hup Hfound]]. rewrite Hup in Hupd.
    injection Hupd as <-. exists u. split; [reflexivity|]. exact Hfound.
  - rewrite Hfind in Hupd. discriminate Hupd.
Qed.

(** C10: in the watermark write that ends a run, each bound on its own: a
    null observed bound leaves the stored field as it was, a non-null one is
    written, whatever the other bound is. *)
Theorem watermark_write_per_bound env userId pageToken w user tok sr res w' :
  validateUserAndAiAccess env w userId = Returned (inr (user, tok)) ->
  findSenders env w (getGmailClient tok) tok 20 pageToken
    (oldestCategorizedEmailTime user) (newestCategorizedEmailTime user)
  = Returned sr ->
  categorizeSenders env userId pageToken w = (Returned (inr res), w') ->
  exists u u',
    Prisma.find_user (user_id user) (db w) = Some u /\
    Prisma.find_user (user_id user) (db w') = Some u' /\
    oldestCategorizedEmailTime u' =
      match oldestDate (sr_dateRange sr) with
      | Some t => Some t
      | None => oldestCategorizedEmailTime u
      end /\
    newestCategorizedEmailTime u' =
      match newestDate (sr_dateRange sr) with
      | Some t => Some t
      | None => newestCategorizedEmailTime u
      end.
Proof.
  intros Hv Hf Hrun.
  destruct (@categorizeSenders_watermark _ _ _ _ _ _ _ _ _ Hv Hf Hrun)
    as [u [Hu Hu']].
  exists u. eexists. split; [exact Hu|]. split; [exact Hu'|]. simpl.
  destruct (oldestDate (sr_dateRange sr)), (newestDate (sr_dateRange sr));
    split; reflexivity.
Qed.

Lemma watermark_write_per_bound_witness :
  exists u u',
    Prisma.find_user "u1" (db Scenario.start) = Some u /\
    Prisma.find_user "u1"
      (db (snd (categorizeSenders
                  (Scenario.observing (mkRange None (Some 30%Z))) "u1" None
                  Scenario.start))) = Some u' /\
    oldestCategorizedEmailTime u' =
      match @None Z with
      | Some t => Some t
      | None => oldestCategorizedEmailTime u
      end /\
    newestCategorizedEmailTime u' =
      match Some 30%Z with
      | Some t => Some t
      | None => newestCategorizedEmailTime u
      end.
Proof.
  apply (@watermark_write_per_bound
           (Scenario.observing (mkRange None (Some 30%Z))) "u1" None
           Scenario.start Scenario.alice "token"
           (Scenario.nothingFound (mkRange None (Some 30%Z)))
           (mkCategorized 0 None)); reflexivity.
Defined.

(** C1, as stated, fails: with the watermark (10, 20) stored, a run that
    observes the range (15, 18) stores (15, 18); the stored oldest is not
    [min 10 15] and has increased, the stored newest is not [max 20 18] and
    has decreased. *)
Lemma watermark_narrows :
  Prisma.find_user "u1" (db Scenario.start)
  = Some (mkUser "u1" "alice@corp.example" (Some 10%Z) (Some 20%Z)) /\
  Prisma.find_user "u1"
    (db (snd (categorizeSenders
                (Scenario.observing (mkRange (Some 15%Z) (Some 18%Z))) "u1"
                None Scenario.start)))
  = Some (mkUser "u1" "alice@corp.example" (Some 15%Z) (Some 18%Z)) /\
  Z.min 10 15 = 10%Z /\ Z.max 20 18 = 20%Z.
Proof.
  split; [reflexivity|]. split; [vm_compute; reflexivity|].
  split; reflexivity.
Qed.

(** C1, amended: after the watermark update of a run that observed both
    bounds, the stored oldest is the observed oldest and the stored newest
    is the observed newest; the stored oldest is [min stored observed]
    exactly when the observed oldest is not after the stored one, and the
    stored newest is [max stored observed] exactly when the observed newest
    is not before the stored one. *)
Theorem watermark_overwritten env userId pageToken w user tok sr res w'
  observedOldest observedNewest :
  validateUserAndAiAccess env w userId = Returned (inr (user, tok)) ->
  findSenders env w (getGmailClient tok) tok 20 pageToken
    (oldestCategorizedEmailTime user) (newestCategorizedEmailTime user)
  = Returned sr ->
  categorizeSenders env userId pageToken w = (Returned (inr res), w') ->
  sr_dateRange sr = mkRange (Some observedOldest) (Some observedNewest) ->
  exists u u',
    Prisma.find_user (user_id user) (db w) = Some u /\
    Prisma.find_user (user_id user) (db w') = Some u' /\
    oldestCategorizedEmailTime u' = Some observedOldest /\
    newestCategorizedEmailTime u' = Some observedNewest /\
    (forall storedOldest,
        oldestCategorizedEmailTime u = Some storedOldest ->
        (oldestCategorizedEmailTime u'
         = Some (Z.min storedOldest observedOldest)
         <-> (observedOldest <= storedOldest)%Z)) /\
    (forall storedNewest,
        newestCategorizedEmailTime u = Some storedNewest ->
        (newestCategorizedEmailTime u'
         = Some (Z.max storedNewest observedNewest)
         <-> (storedNewest <= observedNewest)%Z)).
Proof.
  intros Hv Hf Hrun Hrange.
  destruct (@categorizeSenders_watermark _ _ _ _ _ _ _ _ _ Hv Hf Hrun)
    as [u [Hu Hu']].
  rewrite Hrange in Hu'. simpl in Hu'.
  exists u. eexists. split; [exact Hu|]. split; [exact Hu'|]. simpl.
  split; [reflexivity|]. split; [reflexivity|].
  split; intros stored _; split; intros H.
  - injection H as H. lia.
  - f_equal. lia.
  - injection H as H. lia.
  - f_equal. lia.
Qed.

Lemma watermark_overwritten_witness :
  exists u u',
    Prisma.find_user "u1" (db Scenario.start) = Some u /\
    Prisma.find_user "u1"
      (db (snd (categorizeSenders
                  (Scenario.observing (mkRange (Some 5%Z) (Some 30%Z))) "u1"
                  None Scenario.start))) = Some u' /\
    oldestCategorizedEmailTime u' = Some 5%Z /\
    newestCategorizedEmailTime u' = Some 30%Z /\
    (forall storedOldest,
        oldestCategorizedEmailTime u = Some storedOldest ->
        (oldestCategorizedEmailTime u' = Some (Z.min storedOldest 5)
         <-> (5 <= storedOldest)%Z)) /\
    (forall storedNewest,
        newestCategorizedEmailTime u = Some storedNewest ->
        (newestCategorizedEmailTime u' = Some (Z.max storedNewest 30)
         <-> (storedNewest <= 30)%Z)).
Proof.
  apply (@watermark_overwritten
           (Scenario.observing (mkRange (Some 5%Z) (Some 30%Z))) "u1" None
           Scenario.start Scenario.alice "token"
           (Scenario.nothingFound (mkRange (Some 5%Z) (Some 30%Z)))
           (mkCategorized 0 None)); reflexivity.
Defined.

(** ** The fallback loop *)

(** C4, as stated, fails: the engine being down for the first of two unknown
    senders rejects the whole loop; the second sender is never looked at and
    no count comes back. *)
Lemma fallback_aborts_on_engine_failure :
  categorizeUnknownSenders (Scenario.downFor "a@corp.example")
    [mkResult "a@corp.example" None; mkResult "b@corp.example" None]
    [] (getGmailClient "token") Scenario.alice [Scenario.personal] "u1"
    Scenario.start
  = (Thrown "engine unavailable",
     mkWorld Scenario.store
       [EvGetThreadsFromSender "a@corp.example" 3;
        EvAiCategorizeSender "a@corp.example" []]).
Proof. vm_compute. reflexivity. Qed.

(** C4, amended: in the fallback loop a failure of the mailbox fetch or of
    the engine call for one sender is not caught: it rejects the loop at that
    sender, so the senders after it are not processed and no count is
    returned; an engine call that resolves to nothing leaves the sender
    uncounted and the loop goes on with the next sender. *)
Theorem fallback_turn_outcomes env sendersMap gmail user cats userId sender
  rest n w :
  let turn := categorizeUnknownSender env sendersMap gmail user cats userId in
  let address := r_sender sender in
  (forall e,
      snippetsOf sendersMap address = [] ->
      getThreadsFromSender env w gmail address 3 = Thrown e ->
      for_of (sender :: rest) turn n w
      = (Thrown e, emit w (EvGetThreadsFromSender address 3))) /\
  (forall previousEmails w1 e,
      previousEmailsOf env sendersMap gmail address w
      = (Returned previousEmails, w1) ->
      aiCategorizeSender env w1 user address previousEmails cats = Thrown e ->
      for_of (sender :: rest) turn n w
      = (Thrown e, emit w1 (EvAiCategorizeSender address previousEmails))) /\
  (forall previousEmails w1,
      previousEmailsOf env sendersMap gmail address w
      = (Returned previousEmails, w1) ->
      aiCategorizeSender env w1 user address previousEmails cats
      = Returned None ->
      for_of (sender :: rest) turn n w
      = for_of rest turn n
          (emit w1 (EvAiCategorizeSender address previousEmails))).
Proof.
  intros turn address. repeat split.
  - intros e Hnone Hfetch. apply for_of_thrown.
    unfold turn, categorizeUnknownSender. apply bind_thrown.
    unfold previousEmailsOf. fold address. rewrite Hnone. simpl.
    unfold getPreviousEmails. apply bind_thrown.
    unfold call. now rewrite Hfetch.
  - intros previousEmails w1 e Hprev Hai. apply for_of_thrown.
    unfold turn, categorizeUnknownSender. fold address.
    erewrite bind_returned; [|exact Hprev].
    apply bind_thrown. unfold call. now rewrite Hai.
  - intros previousEmails w1 Hprev Hai. apply for_of_returned.
    unfold turn, categorizeUnknownSender. fold address.
    erewrite bind_returned; [|exact Hprev].
    unfold bind, call. rewrite Hai. reflexivity.
Qed.

Lemma fallback_turn_outcomes_witness :
  for_of [mkResult "a@corp.example" None; mkResult "b@corp.example" None]
    (categorizeUnknownSender (Scenario.downFor "a@corp.example") []
       (getGmailClient "token") Scenario.alice [Scenario.personal] "u1")
    0 Scenario.start
  = (Thrown "engine unavailable",
     emit (emit Scenario.start (EvGetThreadsFromSender "a@corp.example" 3))
       (EvAiCategorizeSender "a@corp.example" [])).
Proof.
  apply (proj1 (proj2 (@fallback_turn_outcomes
                         (Scenario.downFor "a@corp.example") []
                         (getGmailClient "token") Scenario.alice
                         [Scenario.personal] "u1"
                         (mkResult "a@corp.example" None)
                         [mkResult "b@corp.example" None] 0 Scenario.start)));
    reflexivity.
Defined.

(** ** Assigning a category *)

(** C5, as stated, fails: the user has no "Newsletter" category and the page
    has two senders the static rules take for newsletters; saving the first
    creates the category, saving the second creates it again from the catalog
    read at the start, and the conflict rejects the whole run.  The same call
    on its own, with a catalog older than the store, rejects likewise and
    writes nothing. *)
Lemma category_conflict_is_surfaced :
  fst (categorizeSenders
         (Scenario.collaborators Scenario.twoNewsletters []
            (fun _ => Returned None)) "u1" None Scenario.start)
  = Thrown Prisma.P2002 /\
  updateSenderCategory Scenario.quiet "u1" "newsletter@b.example"
    Scenario.staleCatalog "Newsletter" Scenario.laterStore
  = (Thrown Prisma.P2002, Scenario.laterStore).
Proof. split; vm_compute; reflexivity. Qed.

(** C5, amended: when [updateSenderCategory] must create the category (the
    name is not in the catalog it was given) and the creation fails with the
    duplicate-name conflict, nothing recovers from it: the call rejects with
    the conflict and writes nothing, no assignment either. *)
Theorem category_conflict_rejects env userId sender cats name w :
  find (fun c => cat_name c =? name)%string cats = None ->
  existsb (Prisma.has_name name userId) (categories (db w)) = true ->
  Prisma.category_create (newCategoryId env) name userId w
  = (Thrown Prisma.P2002, w) /\
  updateSenderCategory env userId sender cats name w
  = (Thrown Prisma.P2002, w).
Proof.
  intros Hfind Hdup.
  assert (Hcreate : Prisma.category_create (newCategoryId env) name userId w
                    = (Thrown Prisma.P2002, w)).
  { unfold Prisma.category_create. now rewrite Hdup. }
  split; [exact Hcreate|].
  unfold updateSenderCategory. rewrite Hfind.
  apply bind_thrown. apply bind_thrown. exact Hcreate.
Qed.

Lemma category_conflict_rejects_witness :
  Prisma.category_create (newCategoryId Scenario.quiet) "Newsletter" "u1"
    Scenario.laterStore
  = (Thrown Prisma.P2002, Scenario.laterStore) /\
  updateSenderCategory Scenario.quiet "u1" "newsletter@b.example"
    Scenario.staleCatalog "Newsletter" Scenario.laterStore
  = (Thrown Prisma.P2002, Scenario.laterStore).
Proof.
  apply (@category_conflict_rejects Scenario.quiet "u1"
           "newsletter@b.example" Scenario.staleCatalog "Newsletter"
           Scenario.laterStore); reflexivity.
Defined.

Lemma same_key_refl email userId c :
  Prisma.same_key email userId (mkNewsletter email userId c) = true.
Proof.
  unfold Prisma.same_key; simpl. now rewrite !String.eqb_refl.
Qed.

(** After an upsert the key has exactly one row, when it had at most one. *)
Lemma upsert_row_count email userId cid rows :
  length (filter (Prisma.same_key email userId) rows) <= 1 ->
  length (filter (Prisma.same_key email userId)
            (snd (Prisma.upsert_row email userId cid rows))) = 1.
Proof.
  induction rows as [|r rest IH]; simpl; intros Hle.
  - now rewrite same_key_refl.
  - destruct (Prisma.same_key email userId r) eqn:E; simpl in *.
    + assert (Hn : Prisma.same_key email userId
                     (mkNewsletter (nl_email r) (nl_userId r) (Some cid))
                   = true) by exact E.
      rewrite Hn. simpl. lia.
    + destruct (Prisma.upsert_row email userId cid rest) as [n rest'] eqn:Er.
      simpl in *. rewrite E. apply IH. exact Hle.
Qed.

(** Upserting the same assignment again changes nothing. *)
Lemma upsert_row_replay email userId cid rows :
  Prisma.upsert_row email userId cid
    (snd (Prisma.upsert_row email userId cid rows))
  = Prisma.upsert_row email userId cid rows.
Proof.
  induction rows as [|r rest IH]; simpl.
  - now rewrite same_key_refl.
  - destruct (Prisma.same_key email userId r) eqn:E; simpl.
    + assert (Hn : Prisma.same_key email userId
                     (mkNewsletter (nl_email r) (nl_userId r) (Some cid))
                   = true) by exact E.
      rewrite Hn. reflexivity.
    + destruct (Prisma.upsert_row email userId cid rest) as [n rest'] eqn:Er.
      simpl in *. rewrite E, IH. reflexivity.
Qed.

Lemma has_name_created newId name userId :
  Prisma.has_name name userId (mkCategory newId name None userId) = true.
Proof.
  unfold Prisma.has_name; simpl. now rewrite !String.eqb_refl.
Qed.

Lemma existsb_false_filter A (f : A -> bool) l :
  existsb f l = false -> filter f l = [].
Proof.
  induction l as [|x rest IH]; simpl; [reflexivity|].
  destruct (f x); simpl; [discriminate|exact IH].
Qed.

(** C6, as stated, fails: a second call with the same arguments does not
    overwrite when the first one created the category, it is rejected with
    the duplicate-name conflict; and when the first call is itself rejected
    (the catalog given is older than the store) so is the second, and the
    sender has no assignment row at all. *)
Lemma replay_is_rejected :
  (exists assigned w1,
      updateSenderCategory Scenario.quiet "u1" "x@corp.example"
        Scenario.staleCatalog "Work" Scenario.start
      = (Returned assigned, w1) /\
      updateSenderCategory Scenario.quiet "u1" "x@corp.example"
        Scenario.staleCatalog "Work" w1
      = (Thrown Prisma.P2002, w1)) /\
  (let once :=
     updateSenderCategory Scenario.quiet "u1" "newsletter@b.example"
       Scenario.staleCatalog "Newsletter" Scenario.laterStore in
   let twice :=
     updateSenderCategory Scenario.quiet "u1" "newsletter@b.example"
       Scenario.staleCatalog "Newsletter" (snd once) in
   fst once = Thrown Prisma.P2002 /\
   fst twice = Thrown Prisma.P2002 /\
   length (filter (Prisma.same_key "newsletter@b.example" "u1")
             (newsletters (db (snd twice)))) = 0).
Proof.
  split.
  - eexists. eexists. split; vm_compute; reflexivity.
  - cbv zeta. split; [|split]; vm_compute; reflexivity.
Qed.

(** C6, amended: when a call of [updateSenderCategory] succeeds, the sender
    has exactly one assignment row for the user and the first call added a
    category only if the user had none of that name; a second call with the
    same arguments leaves the store as it is.  It resolves to the same
    assignment when the category was found in the catalog, and is rejected
    with the duplicate-name conflict when the first call created it. *)
Theorem updateSenderCategory_replay env userId sender cats name w assigned w1 :
  length (filter (Prisma.same_key sender userId) (newsletters (db w))) <= 1 ->
  updateSenderCategory env userId sender cats name w = (Returned assigned, w1) ->
  length (filter (Prisma.same_key sender userId) (newsletters (db w1))) = 1 /\
  length (filter (Prisma.has_name name userId) (categories (db w1)))
  <= Nat.max 1
       (length (filter (Prisma.has_name name userId) (categories (db w)))) /\
  updateSenderCategory env userId sender cats name w1 =
  (match newCategory assigned with
   | None => Returned assigned
   | Some _ => Thrown Prisma.P2002
   end, w1).
Proof.
  intros Hkey Hrun. unfold updateSenderCategory in *.
  destruct (find (fun c => cat_name c =? name)%string cats) as [c|] eqn:Hfind.
  - unfold bind, ret, Prisma.newsletter_upsert in *. simpl in *.
    pose proof (upsert_row_count sender userId (cat_id c) (newsletters (db w))
                  Hkey) as Hcount.
    pose proof (upsert_row_replay sender userId (cat_id c)
                  (newsletters (db w))) as Hreplay.
    destruct (Prisma.upsert_row sender userId (cat_id c) (newsletters (db w)))
      as [n rows] eqn:Hup.
    injection Hrun as <- <-. simpl in *.
    split; [exact Hcount|]. split.
    + destruct (length (filter _ (categories (db w)))); lia.
    + rewrite Hreplay. reflexivity.
  - unfold bind at 1 in Hrun. unfold bind at 1 in Hrun.
    unfold Prisma.category_create in *.
    destruct (existsb (Prisma.has_name name userId) (categories (db w)))
      eqn:Hdup; [discriminate Hrun|].
    unfold bind, ret, Prisma.newsletter_upsert in Hrun. simpl in Hrun.
    pose proof (upsert_row_count sender userId (newCategoryId env (db w))
                  (newsletters (db w)) Hkey) as Hcount.
    destruct (Prisma.upsert_row sender userId (newCategoryId env (db w))
                (newsletters (db w))) as [n rows] eqn:Hup.
    injection Hrun as <- <-. simpl in *.
    split; [exact Hcount|]. split.
    + rewrite filter_app, length_app. simpl. rewrite has_name_created.
      rewrite (existsb_false_filter _ _ Hdup). simpl. lia.
    + unfold bind at 1. unfold bind at 1.
      simpl. rewrite existsb_app. simpl. rewrite has_name_created.
      rewrite orb_true_r. reflexivity.
Qed.

Lemma updateSenderCategory_replay_witness :
  length (filter (Prisma.same_key "x@corp.example" "u1")
            (newsletters
               (db (snd (updateSenderCategory Scenario.quiet "u1"
                           "x@corp.example" [Scenario.personal] "Personal"
                           Scenario.start))))) = 1 /\
  length (filter (Prisma.has_name "Personal" "u1")
            (categories
               (db (snd (updateSenderCategory Scenario.quiet "u1"
                           "x@corp.example" [Scenario.personal] "Personal"
                           Scenario.start)))))
  <= Nat.max 1
       (length (filter (Prisma.has_name "Personal" "u1")
                  (categories (db Scenario.start)))) /\
  updateSenderCategory Scenario.quiet "u1" "x@corp.example"
    [Scenario.personal] "Personal"
    (snd (updateSenderCategory Scenario.quiet "u1" "x@corp.example"
            [Scenario.personal] "Personal" Scenario.start)) =
  (match newCategory
           (mkAssigned None (mkNewsletter "x@corp.example" "u1" (Some "c1")))
   with
   | None =>
       Returned
         (mkAssigned None (mkNewsletter "x@corp.example" "u1" (Some "c1")))
   | Some _ => Thrown Prisma.P2002
   end,
   snd (updateSenderCategory Scenario.quiet "u1" "x@corp.example"
          [Scenario.personal] "Personal" Scenario.start)).
Proof.
  apply (@updateSenderCategory_replay Scenario.quiet "u1" "x@corp.example"
           [Scenario.personal] "Personal" Scenario.start
           (mkAssigned None (mkNewsletter "x@corp.example" "u1" (Some "c1")))).
  - simpl. lia.
  - reflexivity.
Defined.

(** ** The input of the second pass *)

(** Every result without a usable category, and every stored sender without
    one, is in the input of the second pass. *)
Lemma unknownSendersOf_complete results existing r :
  isUnknownSender r = true ->
  In r results \/
  (exists s, In s existing /\
             r = mkResult (Prisma.email s)
                   (option_map fst (Prisma.category s))) ->
  In r (unknownSendersOf results existing).
Proof.
  intros Hunknown Hin. unfold unknownSendersOf.
  apply filter_In. split; [|exact Hunknown].
  apply in_or_app. destruct Hin as [Hin|[s [Hs ->]]]; [now left|right].
  apply in_map_iff. now exists s.
Qed.

(** C2 at the failing input: one new sender that the static rules leave
    without a category and for which the batch classifier asks for more
    information.  The results of the first pass hold the sender twice, both
    entries pass [isUnknownSender], and the second pass asks the
    single-sender classifier about it twice. *)
Theorem unresolved_sender_listed_twice :
  fst (categorizeNewSenders Scenario.insufficient ["x@corp.example"] []
         (sr_senders (Scenario.oneFound "x@corp.example")) Scenario.alice
         [Scenario.personal] "u1" Scenario.start)
  = Returned
      ([mkResult "x@corp.example" None;
        mkResult "x@corp.example" (Some REQUEST_MORE_INFORMATION_CATEGORY)],
       1) /\
  map r_sender
    (unknownSendersOf
       [mkResult "x@corp.example" None;
        mkResult "x@corp.example" (Some REQUEST_MORE_INFORMATION_CATEGORY)]
       [])
  = ["x@corp.example"; "x@corp.example"] /\
  trace (snd (categorizeSenders Scenario.insufficient "u1" None
                Scenario.start))
  = [EvFindSenders 20 None (Some 10%Z) (Some 20%Z);
     EvAiCategorizeSenders [("x@corp.example", ["hello"])];
     EvAiCategorizeSender "x@corp.example" ["hello"];
     EvAiCategorizeSender "x@corp.example" ["hello"];
     EvRevalidatePath "/smart-categories"].
Proof. split; [|split]; vm_compute; reflexivity. Qed.

(** * Further properties *)

(** ** Discovery *)

Lemma existsb_eqb_In x seen :
  existsb (String.eqb x) seen = true <-> In x seen.
Proof.
  rewrite existsb_exists. split.
  - intros [y [Hin Heq]]. apply String.eqb_eq in Heq. now subst.
  - intros Hin. exists x. split; [exact Hin|apply String.eqb_refl].
Qed.

Lemma uniq_from_In seen l x :
  In x (uniq_from seen l) <-> In x l /\ ~ In x seen.
Proof.
  revert seen. induction l as [|y rest IH]; intros seen; simpl.
  - tauto.
  - destruct (existsb (String.eqb y) seen) eqn:E.
    + apply existsb_eqb_In in E. rewrite IH. split.
      * intros [H1 H2]. auto.
      * intros [[H1|H1] H2]; [subst; contradiction|auto].
    + assert (Hy : ~ In y seen).
      { intros H. apply existsb_eqb_In in H. congruence. }
      simpl. rewrite IH. simpl. split.
      * intros [H|[H1 H2]]; [subst; auto|]. split; [auto|tauto].
      * intros [[H|H] H2]; [auto|].
        destruct (string_dec y x) as [->|Hne]; [auto|]. right.
        split; [exact H|]. intros [H3|H3]; [contradiction|contradiction].
Qed.

Lemma uniq_from_NoDup seen l : NoDup (uniq_from seen l).
Proof.
  revert seen. induction l as [|y rest IH]; intros seen; simpl.
  - constructor.
  - destruct (existsb (String.eqb y) seen); [apply IH|].
    constructor; [|apply IH].
    rewrite uniq_from_In. simpl. tauto.
Qed.

(** [uniq_from] reads its first argument as a set. *)
Lemma uniq_from_ext seen seen' l :
  (forall x, In x seen <-> In x seen') ->
  uniq_from seen l = uniq_from seen' l.
Proof.
  revert seen seen'. induction l as [|y rest IH]; intros seen seen' Hext;
    simpl; [reflexivity|].
  assert (E : existsb (String.eqb y) seen = existsb (String.eqb y) seen').
  { destruct (existsb (String.eqb y) seen) eqn:E1;
      destruct (existsb (String.eqb y) seen') eqn:E2; try reflexivity.
    - apply existsb_eqb_In, Hext, existsb_eqb_In in E1. congruence.
    - apply existsb_eqb_In, Hext, existsb_eqb_In in E2. congruence. }
  rewrite E. destruct (existsb (String.eqb y) seen').
  - now apply IH.
  - f_equal. apply IH. intros x; simpl. rewrite Hext. tauto.
Qed.

Lemma uniq_from_fresh seen l :
  NoDup l -> (forall x, In x l -> ~ In x seen) -> uniq_from seen l = l.
Proof.
  revert seen. induction l as [|y rest IH]; intros seen Hnd Hfresh; simpl;
    [reflexivity|].
  inversion Hnd as [|? ? Hy Hrest]; subst.
  destruct (existsb (String.eqb y) seen) eqn:E.
  - apply existsb_eqb_In in E. exfalso. apply (Hfresh y); simpl; auto.
  - f_equal. apply IH; [exact Hrest|].
    intros x Hx [H|H]; [subst; contradiction|].
    apply (Hfresh x); simpl; auto.
Qed.

(** X1: the senders that discovery hands to the pipeline are the keys of the
    page, each once; the reader was asked for 20 senders with the caller's
    token and window, and the date range is the reader's. *)
Theorem discovered_senders_distinct env gmail accessToken oldest newest
  pageToken w senders sendersResult dateRange w' :
  findAndPrepareSenders env gmail accessToken oldest newest pageToken w
  = (Returned (senders, sendersResult, dateRange), w') ->
  NoDup senders /\
  (forall s, In s senders <-> In s (JsMap.keys (sr_senders sendersResult))) /\
  findSenders env w gmail accessToken 20 pageToken oldest newest
  = Returned sendersResult /\
  dateRange = sr_dateRange sendersResult /\
  w' = emit w (EvFindSenders 20 pageToken oldest newest).
Proof.
  unfold findAndPrepareSenders, bind, call, ret.
  destruct (findSenders env w gmail accessToken 20 pageToken oldest newest)
    as [sr|e]; [|discriminate].
  intros H. injection H as <- <- <- <-.
  split; [apply uniq_from_NoDup|].
  split; [|auto].
  intros s. unfold uniq. rewrite uniq_from_In. simpl. tauto.
Qed.

Lemma discovered_senders_distinct_witness :
  NoDup ["newsletter@a.example"; "newsletter@b.example"] /\
  (forall s,
      In s ["newsletter@a.example"; "newsletter@b.example"] <->
      In s (JsMap.keys (sr_senders Scenario.twoNewsletters))) /\
  findSenders
    (Scenario.collaborators Scenario.twoNewsletters []
       (fun _ => Returned None))
    Scenario.start (getGmailClient "token") "token" 20 None None None
  = Returned Scenario.twoNewsletters /\
  mkRange None None = sr_dateRange Scenario.twoNewsletters /\
  emit Scenario.start (EvFindSenders 20 None None None)
  = emit Scenario.start (EvFindSenders 20 None None None).
Proof.
  apply (@discovered_senders_distinct
           (Scenario.collaborators Scenario.twoNewsletters []
              (fun _ => Returned None))
           (getGmailClient "token") "token" None None None Scenario.start
           ["newsletter@a.example"; "newsletter@b.example"]
           Scenario.twoNewsletters (mkRange None None)
           (emit Scenario.start (EvFindSenders 20 None None None))).
  reflexivity.
Defined.

(** ** The batch request *)

Lemma JsMap_keys_set_eq V (m : JsMap.t V) k v :
  JsMap.keys (JsMap.set m k v) =
  if existsb (String.eqb k) (JsMap.keys m) then JsMap.keys m
  else JsMap.keys m ++ [k].
Proof.
  unfold JsMap.keys. induction m as [|[k' v'] rest IH]; simpl; [reflexivity|].
  rewrite (String.eqb_sym k k').
  destruct (k' =? k)%string; simpl; [reflexivity|].
  rewrite IH. now destruct (existsb (String.eqb k) (map fst rest)).
Qed.

Lemma JsMap_keys_fold_eq V (entries : list (string * V)) :
  forall m : JsMap.t V,
    JsMap.keys (fold_left (fun m kv => JsMap.set m (fst kv) (snd kv))
                  entries m)
    = JsMap.keys m ++ uniq_from (JsMap.keys m) (map fst entries).
Proof.
  induction entries as [|[k v] rest IH]; intros m; simpl.
  - now rewrite app_nil_r.
  - rewrite IH, JsMap_keys_set_eq.
    destruct (existsb (String.eqb k) (JsMap.keys m)); [reflexivity|].
    rewrite <- app_assoc. simpl. do 2 f_equal.
    apply uniq_from_ext. intros x. rewrite in_app_iff. simpl. tauto.
Qed.

(** The keys of [new Map(entries)] are the keys of the entries, each once,
    in the order of their first occurrence. *)
Lemma JsMap_keys_of_entries_eq V (entries : list (string * V)) :
  JsMap.keys (JsMap.of_entries entries) = uniq (map fst entries).
Proof. unfold JsMap.of_entries. now rewrite JsMap_keys_fold_eq. Qed.

Lemma JsMap_get_set V (m : JsMap.t V) k v k' :
  JsMap.get (JsMap.set m k v) k' =
  if (k =? k')%string then Some v else JsMap.get m k'.
Proof.
  induction m as [|[k0 v0] rest IH]; simpl; [reflexivity|].
  destruct (k0 =? k)%string eqn:E0; simpl.
  - apply String.eqb_eq in E0. subst k0.
    now destruct (k =? k')%string.
  - rewrite IH. destruct (k0 =? k')%string eqn:E1; [|reflexivity].
    apply String.eqb_eq in E1. subst k0. now rewrite String.eqb_sym, E0.
Qed.

Lemma JsMap_get_fold V (f : string -> V) l :
  forall (m : JsMap.t V) s,
    JsMap.get (fold_left (fun m kv => JsMap.set m (fst kv) (snd kv))
                 (map (fun s => (s, f s)) l) m) s
    = if existsb (String.eqb s) l then Some (f s) else JsMap.get m s.
Proof.
  induction l as [|y rest IH]; intros m s; simpl; [reflexivity|].
  rewrite IH, JsMap_get_set. rewrite (String.eqb_sym s y).
  destruct (existsb (String.eqb s) rest); [now rewrite orb_true_r|].
  rewrite orb_false_r. destruct (y =? s)%string eqn:E; [|reflexivity].
  apply String.eqb_eq in E. now subst.
Qed.

(** Looking up a key of a map built from a list of keys and a function. *)
Lemma JsMap_get_of_entries V (f : string -> V) l s :
  In s l ->
  JsMap.get (JsMap.of_entries (map (fun s => (s, f s)) l)) s = Some (f s).
Proof.
  intros Hin. unfold JsMap.of_entries. rewrite JsMap_get_fold.
  apply existsb_eqb_In in Hin. now rewrite Hin.
Qed.

Lemma staticRule_unresolved env sender :
  negb (truthy (r_category (staticRule env sender))) = noStaticRule env sender.
Proof.
  rewrite staticRule_first_match. unfold noStaticRule. simpl.
  destruct (hasPersonalEmailDomain sender); [reflexivity|].
  destruct (isNewsletterSender env sender); [reflexivity|].
  destruct (isReceiptSender env sender); reflexivity.
Qed.

Lemma sendersToCategorizeWithAi_static env keys :
  sendersToCategorizeWithAi (preCategorizeSendersWithStaticRules env keys)
  = filter (noStaticRule env) keys.
Proof.
  unfold sendersToCategorizeWithAi, preCategorizeSendersWithStaticRules.
  induction keys as [|k rest IH]; simpl; [reflexivity|].
  rewrite staticRule_unresolved.
  destruct (noStaticRule env k); simpl; [|exact IH].
  now rewrite staticRule_sender, IH.
Qed.

(** X2: whatever happens afterwards, the first pass sends one batch request,
    which holds, each once and in the order of discovery, the senders that
    have no stored assignment among [existing] and that no static rule
    matches, each with the defined snippets of its messages on the page. *)
Theorem batch_request_contents env senders existing sendersMap user cats
  userId w :
  trace (snd (categorizeNewSenders env senders existing sendersMap user cats
                userId w))
  = trace w ++
    [EvAiCategorizeSenders
       (map (fun s => (s, snippetsOf sendersMap s))
          (filter (noStaticRule env)
             (uniq (sendersToCategorize senders existing))))].
Proof.
  rewrite categorizeNewSenders_trace. do 3 f_equal.
  unfold aiRequest.
  rewrite sendersToCategorizeWithAi_static, JsMap_keys_of_entries_eq.
  rewrite map_map. simpl. rewrite map_id.
  apply map_ext_in. intros s Hs.
  apply filter_In in Hs as [Hs _].
  unfold uniq in Hs. apply uniq_from_In in Hs as [Hs _].
  now rewrite JsMap_get_of_entries.
Qed.

(** ** What the first pass saves *)

(** The batch request of the first pass, written out. *)
Lemma aiRequest_contents env senders existing sendersMap :
  aiRequest
    (JsMap.of_entries
       (map (fun sender => (sender, snippetsOf sendersMap sender))
          (sendersToCategorize senders existing)))
    (preCategorizeSendersWithStaticRules env
       (JsMap.keys
          (JsMap.of_entries
             (map (fun sender => (sender, snippetsOf sendersMap sender))
                (sendersToCategorize senders existing)))))
  = map (fun s => (s, snippetsOf sendersMap s))
      (filter (noStaticRule env)
         (uniq (sendersToCategorize senders existing))).
Proof.
  unfold aiRequest.
  rewrite sendersToCategorizeWithAi_static, JsMap_keys_of_entries_eq.
  rewrite map_map. simpl. rewrite map_id.
  apply map_ext_in. intros s Hs.
  apply filter_In in Hs as [Hs _].
  unfold uniq in Hs. apply uniq_from_In in Hs as [Hs _].
  now rewrite JsMap_get_of_entries.
Qed.

(** The results of a first pass that returns: the static results, then what
    the batch classifier answered to the request. *)
Lemma categorizeNewSenders_answers env senders existing sendersMap user cats
  userId w results count w' :
  categorizeNewSenders env senders existing sendersMap user cats userId w
  = (Returned (results, count), w') ->
  exists aiResults,
    aiCategorizeSenders env w user
      (map (fun s => (s, snippetsOf sendersMap s))
         (filter (noStaticRule env)
            (uniq (sendersToCategorize senders existing))))
      cats = Returned aiResults /\
    results =
    preCategorizeSendersWithStaticRules env
      (uniq (sendersToCategorize senders existing)) ++ aiResults.
Proof.
  unfold categorizeNewSenders. intros H.
  apply bind_inv in H as [results0 [w1 [Hai H]]].
  apply bind_inv in H as [k [w2 [_ H]]].
  unfold ret in H. injection H as <- _ _.
  unfold categorizeWithAi in Hai.
  apply bind_inv in Hai as [aiResults [w0 [Hcall Hai]]].
  unfold ret in Hai. injection Hai as <- _.
  unfold call in Hcall. rewrite aiRequest_contents in Hcall.
  exists aiResults. split.
  - now injection Hcall.
  - rewrite JsMap_keys_of_entries_eq.
    rewrite map_map. simpl. now rewrite map_id.
Qed.


Lemma upsert_row_has email userId cid rows :
  existsb (Prisma.same_key email userId)
    (snd (Prisma.upsert_row email userId cid rows)) = true.
Proof.
  induction rows as [|r rest IH]; simpl.
  - now rewrite same_key_refl.
  - destruct (Prisma.same_key email userId r) eqn:E; simpl.
    + assert (Hn : Prisma.same_key email userId
                     (mkNewsletter (nl_email r) (nl_userId r) (Some cid))
                   = true) by exact E.
      now rewrite Hn.
    + destruct (Prisma.upsert_row email userId cid rest) as [n rest'].
      simpl in *. now rewrite E.
Qed.

Lemma upsert_row_keeps email userId cid rows email' userId' :
  existsb (Prisma.same_key email' userId') rows = true ->
  existsb (Prisma.same_key email' userId')
    (snd (Prisma.upsert_row email userId cid rows)) = true.
Proof.
  induction rows as [|r rest IH]; simpl; [discriminate|].
  intros H. destruct (Prisma.same_key email userId r) eqn:E; simpl.
  - assert (Hn : Prisma.same_key email' userId'
                   (mkNewsletter (nl_email r) (nl_userId r) (Some cid))
                 = Prisma.same_key email' userId' r) by reflexivity.
    now rewrite Hn.
  - destruct (Prisma.upsert_row email userId cid rest) as [n rest'].
    simpl in *. apply orb_true_iff in H as [H|H].
    + now rewrite H.
    + rewrite (IH H). apply orb_true_r.
Qed.

Lemma keeps_assignments_refl w : keeps_assignments w w.
Proof. intros s u H; exact H. Qed.

Lemma keeps_assignments_trans w1 w2 w3 :
  keeps_assignments w1 w2 -> keeps_assignments w2 w3 ->
  keeps_assignments w1 w3.
Proof. intros H1 H2 s u H. apply H2, H1, H. Qed.

Lemma updateSenderCategory_keeps_assignments env userId sender cats name w :
  keeps_assignments w
    (snd (updateSenderCategory env userId sender cats name w)).
Proof.
  intros s u H. unfold hasAssignment in *.
  unfold updateSenderCategory, bind, ret, Prisma.category_create,
    Prisma.newsletter_upsert.
  destruct (find _ cats) as [c|]; simpl.
  - pose proof (upsert_row_keeps sender userId (cat_id c) _ _ _ H) as Hk.
    destruct (Prisma.upsert_row _ _ _ _); simpl in *; exact Hk.
  - destruct (existsb _ (categories (db w))); simpl; [exact H|].
    pose proof (upsert_row_keeps sender userId (newCategoryId env (db w))
                  _ _ _ H) as Hk.
    destruct (Prisma.upsert_row _ _ _ _); simpl in *; exact Hk.
Qed.

Lemma updateSenderCategory_assigns env userId sender cats name w assigned w' :
  updateSenderCategory env userId sender cats name w = (Returned assigned, w') ->
  hasAssignment sender userId w'.
Proof.
  unfold hasAssignment, updateSenderCategory, bind, ret,
    Prisma.category_create, Prisma.newsletter_upsert.
  destruct (find _ cats) as [c|]; simpl.
  - pose proof (upsert_row_has sender userId (cat_id c) (newsletters (db w)))
      as Hk.
    destruct (Prisma.upsert_row _ _ _ _); simpl in *.
    intros H. injection H as _ <-. exact Hk.
  - destruct (existsb _ (categories (db w))); simpl; [discriminate|].
    pose proof (upsert_row_has sender userId (newCategoryId env (db w))
                  (newsletters (db w))) as Hk.
    destruct (Prisma.upsert_row _ _ _ _); simpl in *.
    intros H. injection H as _ <-. exact Hk.
Qed.

Lemma saveResult_keeps_assignments env cats userId r n w :
  keeps_assignments w (snd (saveResult env cats userId r n w)).
Proof.
  unfold saveResult.
  destruct (r_category r) as [name|]; [|apply keeps_assignments_refl].
  destruct (name =? EmptyString)%string; [apply keeps_assignments_refl|].
  unfold bind.
  pose proof (@updateSenderCategory_keeps_assignments env userId (r_sender r)
                cats name w) as H.
  destruct (updateSenderCategory _ _ _ _ _ w) as [[a|e] w']; simpl in *;
    exact H.
Qed.

(** A turn that returns has counted the result, and saved its sender, when
    the result carries a category. *)
Lemma saveResult_returned env cats userId r n w k w' :
  saveResult env cats userId r n w = (Returned k, w') ->
  if truthy (r_category r)
  then k = n + 1 /\ hasAssignment (r_sender r) userId w'
  else k = n /\ w' = w.
Proof.
  unfold saveResult, truthy.
  destruct (r_category r) as [name|].
  - destruct (name =? EmptyString)%string; simpl.
    + unfold ret. intros H; injection H as <- <-. now split.
    + intros H. apply bind_inv in H as [a [w1 [Hup H]]].
      unfold ret in H. injection H as <- <-. split; [reflexivity|].
      exact (updateSenderCategory_assigns _ _ _ _ _ _ Hup).
  - unfold ret. intros H; injection H as <- <-. now split.
Qed.

Lemma save_loop_returned env cats userId results :
  forall n w k w',
    for_of results (saveResult env cats userId) n w = (Returned k, w') ->
    k = n + length (filter (fun r => truthy (r_category r)) results) /\
    forall r, In r results -> truthy (r_category r) = true ->
              hasAssignment (r_sender r) userId w'.
Proof.
  induction results as [|r rest IH]; intros n w k w' H; simpl in *.
  - unfold ret in H. injection H as <- <-. split; [lia|]. intros r [].
  - apply bind_inv in H as [n1 [w1 [Hturn Hrest]]].
    pose proof (saveResult_returned _ _ _ _ _ _ Hturn) as Hr.
    destruct (IH _ _ _ _ Hrest) as [Hk Hsaved].
    assert (Hkeep : keeps_assignments w1 w').
    { pose proof (for_of_keeps keeps_assignments
                    (saveResult env cats userId) keeps_assignments_refl
                    keeps_assignments_trans
                    (@saveResult_keeps_assignments env cats userId)
                    rest n1 w1) as Hloop.
      now rewrite Hrest in Hloop. }
    destruct (truthy (r_category r)) eqn:E; simpl.
    + destruct Hr as [-> Hhas]. split; [lia|].
      intros r' [<-|Hin] Ht; [apply Hkeep, Hhas|now apply Hsaved].
    + destruct Hr as [-> ->]. split; [lia|].
      intros r' [<-|Hin] Ht; [congruence|now apply Hsaved].
Qed.

(** X3: when the first pass returns, its results are the static results of
    the senders to categorize followed by what the batch classifier answered
    to the request; the count is the number of results that carry a category
    (those the static rules marked "Unknown" included), and the sender of
    each such result has an assignment row for the user. *)
Theorem first_pass_outcome env senders existing sendersMap user cats userId w
  results count w' :
  categorizeNewSenders env senders existing sendersMap user cats userId w
  = (Returned (results, count), w') ->
  (exists aiResults,
      aiCategorizeSenders env w user
        (map (fun s => (s, snippetsOf sendersMap s))
           (filter (noStaticRule env)
              (uniq (sendersToCategorize senders existing))))
        cats = Returned aiResults /\
      results =
      preCategorizeSendersWithStaticRules env
        (uniq (sendersToCategorize senders existing)) ++ aiResults) /\
  count = length (filter (fun r => truthy (r_category r)) results) /\
  forall r, In r results -> truthy (r_category r) = true ->
            hasAssignment (r_sender r) userId w'.
Proof.
  intros H. split; [exact (categorizeNewSenders_answers _ _ _ _ _ _ _ _ H)|].
  unfold categorizeNewSenders in H.
  apply bind_inv in H as [results0 [w1 [_ H]]].
  apply bind_inv in H as [k [w2 [Hloop H]]].
  unfold ret in H. injection H as <- <- <-.
  destruct (save_loop_returned _ _ _ _ _ _ Hloop) as [Hk Hsaved].
  split; [exact Hk|exact Hsaved].
Qed.

Lemma first_pass_outcome_witness :
  (exists aiResults,
      aiCategorizeSenders Scenario.insufficient Scenario.start Scenario.alice
        (map (fun s =>
                (s, snippetsOf
                      (sr_senders (Scenario.oneFound "x@corp.example")) s))
           (filter (noStaticRule Scenario.insufficient)
              (uniq (sendersToCategorize ["x@corp.example"] []))))
        [Scenario.personal] = Returned aiResults /\
      [mkResult "x@corp.example" None;
       mkResult "x@corp.example" (Some REQUEST_MORE_INFORMATION_CATEGORY)] =
      preCategorizeSendersWithStaticRules Scenario.insufficient
        (uniq (sendersToCategorize ["x@corp.example"] [])) ++ aiResults) /\
  1 = length
        (filter (fun r => truthy (r_category r))
           [mkResult "x@corp.example" None;
            mkResult "x@corp.example"
              (Some REQUEST_MORE_INFORMATION_CATEGORY)]) /\
  forall r,
    In r [mkResult "x@corp.example" None;
          mkResult "x@corp.example" (Some REQUEST_MORE_INFORMATION_CATEGORY)] ->
    truthy (r_category r) = true ->
    hasAssignment (r_sender r) "u1"
      (snd (categorizeNewSenders Scenario.insufficient ["x@corp.example"] []
              (sr_senders (Scenario.oneFound "x@corp.example"))
              Scenario.alice [Scenario.personal] "u1" Scenario.start)).
Proof.
  apply (@first_pass_outcome Scenario.insufficient ["x@corp.example"] []
           (sr_senders (Scenario.oneFound "x@corp.example")) Scenario.alice
           [Scenario.personal] "u1" Scenario.start).
  reflexivity.
Defined.

(** ** The calls of the second pass *)

Lemma adds_refl P w : adds P w w.
Proof. exists []. split; [now rewrite app_nil_r|constructor]. Qed.

Lemma adds_trans P w1 w2 w3 : adds P w1 w2 -> adds P w2 w3 -> adds P w1 w3.
Proof.
  intros [e1 [H1 F1]] [e2 [H2 F2]]. exists (e1 ++ e2). split.
  - now rewrite H2, H1, app_assoc.
  - apply Forall_app. now split.
Qed.

Lemma adds_emit (P : Event -> Prop) w e : P e -> adds P w (emit w e).
Proof. intros H. exists [e]. split; [reflexivity|now constructor]. Qed.

Lemma adds_same_trace P w w' : trace w' = trace w -> adds P w w'.
Proof. intros H. exists []. split; [now rewrite app_nil_r|constructor]. Qed.

Lemma length_zero_nil A (l : list A) : Nat.eqb (length l) 0 = true -> l = [].
Proof. destruct l; [reflexivity|discriminate]. Qed.

Lemma previousEmailsOf_adds env sendersMap gmail sender w :
  adds (fun e => fallbackEvent sendersMap e /\ asked [e] = []) w
    (snd (previousEmailsOf env sendersMap gmail sender w)).
Proof.
  unfold previousEmailsOf.
  destruct (Nat.eqb (length (snippetsOf sendersMap sender)) 0) eqn:E.
  - apply length_zero_nil in E.
    unfold getPreviousEmails, bind, call, ret.
    destruct (getThreadsFromSender env w gmail sender 3); simpl;
      apply adds_emit; simpl; auto.
  - apply adds_refl.
Qed.

(** A turn of the second pass adds only events of the second pass. *)
Lemma categorizeUnknownSender_adds env sendersMap gmail user cats userId
  sender n w :
  adds (fallbackEvent sendersMap) w
    (snd (categorizeUnknownSender env sendersMap gmail user cats userId
            sender n w)).
Proof.
  unfold categorizeUnknownSender.
  pose proof (previousEmailsOf_adds env sendersMap gmail (r_sender sender) w)
    as [evs [Ht Hf]].
  assert (Hfetch : adds (fallbackEvent sendersMap) w
                     (snd (previousEmailsOf env sendersMap gmail
                             (r_sender sender) w))).
  { exists evs. split; [exact Ht|].
    eapply Forall_impl; [|exact Hf]. now intros e [He _]. }
  unfold bind at 1.
  destruct (previousEmailsOf env sendersMap gmail (r_sender sender) w)
    as [[previousEmails|e] w1]; simpl in Hfetch; [|exact Hfetch].
  eapply adds_trans; [exact Hfetch|].
  unfold bind at 1, call.
  destruct (aiCategorizeSender env w1 user _ previousEmails cats)
    as [[category|]|e]; simpl; try (apply adds_emit; exact I).
  eapply adds_trans;
    [apply (@adds_emit (fallbackEvent sendersMap) w1
              (EvAiCategorizeSender (r_sender sender) previousEmails));
     exact I|].
  unfold bind.
  pose proof (updateSenderCategory_keeps_users env userId (r_sender sender)
                cats category
                (emit w1 (EvAiCategorizeSender (r_sender sender)
                            previousEmails))) as [Ht2 _].
  destruct (updateSenderCategory _ _ _ _ _ _) as [[a|e] w2]; simpl in *;
    now apply adds_same_trace.
Qed.

(** X4: however it ends, the second pass asks the single-sender classifier,
    and fetches threads from the mailbox only for a sender of which the page
    holds no snippet, three threads at most; it makes no other call. *)
Theorem fallback_calls env unknownSenders sendersMap gmail user cats userId w :
  exists events,
    trace (snd (categorizeUnknownSenders env unknownSenders sendersMap gmail
                  user cats userId w))
    = trace w ++ events /\
    Forall (fallbackEvent sendersMap) events.
Proof.
  unfold categorizeUnknownSenders.
  apply (for_of_keeps (adds (fallbackEvent sendersMap))).
  - apply adds_refl.
  - apply adds_trans.
  - intros; apply categorizeUnknownSender_adds.
Qed.

Lemma asked_app e1 e2 : asked (e1 ++ e2) = asked e1 ++ asked e2.
Proof. unfold asked. apply flat_map_app. Qed.

Lemma adds_silent_asked sendersMap events :
  Forall (fun e => fallbackEvent sendersMap e /\ asked [e] = []) events ->
  asked events = [].
Proof.
  induction 1 as [|e rest [_ He] _ IH]; [reflexivity|].
  change (e :: rest) with ([e] ++ rest). now rewrite asked_app, He, IH.
Qed.

(** A turn that returns has asked about its sender, once, and has counted it
    at most once. *)
Lemma categorizeUnknownSender_returned env sendersMap gmail user cats userId
  sender n w k w' :
  categorizeUnknownSender env sendersMap gmail user cats userId sender n w
  = (Returned k, w') ->
  (exists events,
      trace w' = trace w ++ events /\ asked events = [r_sender sender]) /\
  n <= k <= n + 1.
Proof.
  unfold categorizeUnknownSender. intros H.
  apply bind_inv in H as [previousEmails [w1 [Hprev H]]].
  pose proof (previousEmailsOf_adds env sendersMap gmail (r_sender sender) w)
    as [evs [Ht Hf]].
  rewrite Hprev in Ht. simpl in Ht.
  apply adds_silent_asked in Hf.
  apply bind_inv in H as [aiResult [w2 [Hai H]]].
  unfold call in Hai.
  destruct (aiCategorizeSender env w1 user _ previousEmails cats)
    as [answer|e]; [|discriminate Hai].
  injection Hai as <- <-.
  assert (Hasked : asked (evs ++ [EvAiCategorizeSender (r_sender sender)
                                     previousEmails]) = [r_sender sender]).
  { rewrite asked_app, Hf. reflexivity. }
  destruct answer as [category|].
  - apply bind_inv in H as [a [w3 [Hup H]]].
    unfold ret in H. injection H as <- <-.
    pose proof (updateSenderCategory_keeps_users env userId (r_sender sender)
                  cats category
                  (emit w1 (EvAiCategorizeSender (r_sender sender)
                              previousEmails))) as [Ht2 _].
    rewrite Hup in Ht2. simpl in Ht2.
    split; [|lia]. eexists. split; [|exact Hasked].
    rewrite Ht2, Ht. now rewrite app_assoc.
  - unfold ret in H. injection H as <- <-.
    split; [|lia]. eexists. split; [|exact Hasked].
    simpl. rewrite Ht. now rewrite app_assoc.
Qed.

Lemma fallback_loop_returned env sendersMap gmail user cats userId senders :
  forall n w k w',
    for_of senders
      (categorizeUnknownSender env sendersMap gmail user cats userId) n w
    = (Returned k, w') ->
    (exists events,
        trace w' = trace w ++ events /\
        asked events = map r_sender senders) /\
    n <= k <= n + length senders.
Proof.
  induction senders as [|s rest IH]; intros n w k w' H; simpl in *.
  - unfold ret in H. injection H as <- <-.
    split; [|lia]. exists []. split; [now rewrite app_nil_r|reflexivity].
  - apply bind_inv in H as [n1 [w1 [Hturn Hrest]]].
    destruct (categorizeUnknownSender_returned _ _ _ _ _ _ _ _ _ Hturn)
      as [[e1 [Ht1 Ha1]] Hn1].
    destruct (IH _ _ _ _ Hrest) as [[e2 [Ht2 Ha2]] Hn2].
    split; [|lia]. exists (e1 ++ e2). split.
    + now rewrite Ht2, Ht1, app_assoc.
    + now rewrite asked_app, Ha1, Ha2.
Qed.

(** X5: a second pass that returns has asked the single-sender classifier
    about every listed sender, once per entry and in the order of the list,
    and counts at most one per entry. *)
Theorem fallback_asks_each_once env unknownSenders sendersMap gmail user cats
  userId w count w' :
  categorizeUnknownSenders env unknownSenders sendersMap gmail user cats
    userId w = (Returned count, w') ->
  (exists events,
      trace w' = trace w ++ events /\
      asked events = map r_sender unknownSenders) /\
  count <= length unknownSenders.
Proof.
  unfold categorizeUnknownSenders. intros H.
  apply fallback_loop_returned in H as [Hev Hn].
  split; [exact Hev|lia].
Qed.

Lemma fallback_asks_each_once_witness :
  (exists events,
      trace (snd (categorizeUnknownSenders (Scenario.downFor "a@corp.example")
                    [mkResult "b@corp.example" None;
                     mkResult "c@corp.example" (Some "Unknown")]
                    [] (getGmailClient "token") Scenario.alice
                    [Scenario.personal] "u1" Scenario.start))
      = trace Scenario.start ++ events /\
      asked events =
      map r_sender [mkResult "b@corp.example" None;
                    mkResult "c@corp.example" (Some "Unknown")]) /\
  2 <= length [mkResult "b@corp.example" None;
               mkResult "c@corp.example" (Some "Unknown")].
Proof.
  apply (@fallback_asks_each_once (Scenario.downFor "a@corp.example")
           [mkResult "b@corp.example" None;
            mkResult "c@corp.example" (Some "Unknown")]
           [] (getGmailClient "token") Scenario.alice [Scenario.personal]
           "u1" Scenario.start 2).
  reflexivity.
Defined.

(** ** Assigning a category: outcomes and frame *)

Lemma upsert_row_result email userId cid rows :
  let n := fst (Prisma.upsert_row email userId cid rows) in
  Prisma.same_key email userId n = true /\
  nl_categoryId n = Some cid /\
  In n (snd (Prisma.upsert_row email userId cid rows)).
Proof.
  induction rows as [|r rest IH]; simpl.
  - rewrite same_key_refl. auto.
  - destruct (Prisma.same_key email userId r) eqn:E; simpl.
    + repeat split; auto.
    + destruct (Prisma.upsert_row email userId cid rest) as [n rest'].
      simpl in *. destruct IH as (H1 & H2 & H3). auto.
Qed.

(** An upsert touches no row of another key. *)
Lemma upsert_row_other email userId cid rows row :
  Prisma.same_key email userId row = false ->
  In row (snd (Prisma.upsert_row email userId cid rows)) <-> In row rows.
Proof.
  intros Hrow. induction rows as [|r rest IH]; simpl.
  - split; [|tauto]. intros [<-|[]]. now rewrite same_key_refl in Hrow.
  - destruct (Prisma.same_key email userId r) eqn:E; simpl.
    + split; intros [H|H]; auto.
      * subst row. change (Prisma.same_key email userId r = false) in Hrow.
        congruence.
      * subst row. congruence.
    + destruct (Prisma.upsert_row email userId cid rest) as [n rest'].
      simpl in *. rewrite IH. tauto.
Qed.


(** X7: a call of [updateSenderCategory] that returns has stored the row it
    returns, which has the sender's key and points to the category: the
    first entry of that name in the catalog, and then no category is created,
    or else a new category of that name for the user, added to the store. *)
Theorem updateSenderCategory_returned env userId sender cats name w assigned
  w' :
  updateSenderCategory env userId sender cats name w = (Returned assigned, w') ->
  Prisma.same_key sender userId (newsletter assigned) = true /\
  In (newsletter assigned) (newsletters (db w')) /\
  match newCategory assigned with
  | None =>
      exists c,
        find (fun c => cat_name c =? name)%string cats = Some c /\
        nl_categoryId (newsletter assigned) = Some (cat_id c) /\
        categories (db w') = categories (db w)
  | Some c =>
      find (fun c => cat_name c =? name)%string cats = None /\
      c = mkCategory (newCategoryId env (db w)) name None userId /\
      nl_categoryId (newsletter assigned) = Some (cat_id c) /\
      categories (db w') = categories (db w) ++ [c]
  end.
Proof.
  unfold updateSenderCategory, bind, ret, Prisma.category_create,
    Prisma.newsletter_upsert.
  destruct (find _ cats) as [c|]; simpl.
  - pose proof (upsert_row_result sender userId (cat_id c)
                  (newsletters (db w))) as (H1 & H2 & H3).
    destruct (Prisma.upsert_row _ _ _ _) as [n rows]; simpl in *.
    intros H. injection H as <- <-. simpl.
    split; [exact H1|]. split; [exact H3|]. exists c. auto.
  - destruct (existsb _ (categories (db w))); simpl; [discriminate|].
    pose proof (upsert_row_result sender userId (newCategoryId env (db w))
                  (newsletters (db w))) as (H1 & H2 & H3).
    destruct (Prisma.upsert_row _ _ _ _) as [n rows]; simpl in *.
    intros H. injection H as <- <-. simpl.
    split; [exact H1|]. split; [exact H3|]. auto.
Qed.

Lemma updateSenderCategory_returned_witness :
  Prisma.same_key "x@corp.example" "u1"
    (newsletter
       (mkAssigned (Some (mkCategory "1-category" "Work" None "u1"))
          (mkNewsletter "x@corp.example" "u1" (Some "1-category")))) = true /\
  In (newsletter
        (mkAssigned (Some (mkCategory "1-category" "Work" None "u1"))
           (mkNewsletter "x@corp.example" "u1" (Some "1-category"))))
    (newsletters
       (db (snd (updateSenderCategory Scenario.quiet "u1" "x@corp.example"
                   Scenario.staleCatalog "Work" Scenario.start)))) /\
  match newCategory
          (mkAssigned (Some (mkCategory "1-category" "Work" None "u1"))
             (mkNewsletter "x@corp.example" "u1" (Some "1-category")))
  with
  | None =>
      exists c,
        find (fun c => cat_name c =? "Work")%string Scenario.staleCatalog
        = Some c /\
        nl_categoryId
          (newsletter
             (mkAssigned (Some (mkCategory "1-category" "Work" None "u1"))
                (mkNewsletter "x@corp.example" "u1" (Some "1-category"))))
        = Some (cat_id c) /\
        categories
          (db (snd (updateSenderCategory Scenario.quiet "u1"
                      "x@corp.example" Scenario.staleCatalog "Work"
                      Scenario.start)))
        = categories (db Scenario.start)
  | Some c =>
      find (fun c => cat_name c =? "Work")%string Scenario.staleCatalog
      = None /\
      c = mkCategory (newCategoryId Scenario.quiet (db Scenario.start))
            "Work" None "u1" /\
      nl_categoryId
        (newsletter
           (mkAssigned (Some (mkCategory "1-category" "Work" None "u1"))
              (mkNewsletter "x@corp.example" "u1" (Some "1-category"))))
      = Some (cat_id c) /\
      categories
        (db (snd (updateSenderCategory Scenario.quiet "u1" "x@corp.example"
                    Scenario.staleCatalog "Work" Scenario.start)))
      = categories (db Scenario.start) ++ [c]
  end.
Proof.
  apply (@updateSenderCategory_returned Scenario.quiet "u1" "x@corp.example"
           Scenario.staleCatalog "Work" Scenario.start
           (mkAssigned (Some (mkCategory "1-category" "Work" None "u1"))
              (mkNewsletter "x@corp.example" "u1" (Some "1-category")))).
  reflexivity.
Defined.

(** What [updateSenderCategory] can touch. *)
Lemma updateSenderCategory_touches env userId sender cats name w :
  trace (snd (updateSenderCategory env userId sender cats name w)) = trace w /\
  users (db (snd (updateSenderCategory env userId sender cats name w)))
  = users (db w) /\
  (forall row,
      Prisma.same_key sender userId row = false ->
      In row (newsletters
                (db (snd (updateSenderCategory env userId sender cats name w))))
      <-> In row (newsletters (db w))) /\
  (forall c,
      In c (categories (db w)) ->
      In c (categories
              (db (snd (updateSenderCategory env userId sender cats name w))))) /\
  (forall c,
      In c (categories
              (db (snd (updateSenderCategory env userId sender cats name w)))) ->
      In c (categories (db w)) \/
      c = mkCategory (newCategoryId env (db w)) name None userId).
Proof.
  unfold updateSenderCategory, bind, ret, Prisma.category_create,
    Prisma.newsletter_upsert.
  destruct (find _ cats) as [c|]; simpl.
  - pose proof (upsert_row_other sender userId (cat_id c)
                  (newsletters (db w))) as Hother.
    destruct (Prisma.upsert_row _ _ _ _) as [n rows]; simpl in *.
    split; [reflexivity|]. split; [reflexivity|].
    split; [exact Hother|]. split; auto.
  - destruct (existsb _ (categories (db w))); simpl.
    + split; [reflexivity|]. split; [reflexivity|].
      split; [tauto|]. split; auto.
    + pose proof (upsert_row_other sender userId (newCategoryId env (db w))
                    (newsletters (db w))) as Hother.
      destruct (Prisma.upsert_row _ _ _ _) as [n rows]; simpl in *.
      split; [reflexivity|]. split; [reflexivity|].
      split; [exact Hother|]. split.
      * intros c0 Hc. apply in_or_app. now left.
      * intros c0 Hc. apply in_app_or in Hc as [Hc|[<-|[]]]; auto.
Qed.

(** X8: however it ends, [updateSenderCategory] makes no external call and
    leaves the users alone; it touches no assignment row of another key,
    removes no category, and adds at most the category it creates, of the
    given name and for the given user. *)
Theorem updateSenderCategory_frame env userId sender cats name w :
  trace (snd (updateSenderCategory env userId sender cats name w)) = trace w /\
  users (db (snd (updateSenderCategory env userId sender cats name w)))
  = users (db w) /\
  (forall row,
      Prisma.same_key sender userId row = false ->
      In row (newsletters
                (db (snd (updateSenderCategory env userId sender cats name w))))
      <-> In row (newsletters (db w))) /\
  (forall c,
      In c (categories (db w)) ->
      In c (categories
              (db (snd (updateSenderCategory env userId sender cats name w))))) /\
  (forall c,
      In c (categories
              (db (snd (updateSenderCategory env userId sender cats name w)))) ->
      In c (categories (db w)) \/
      c = mkCategory (newCategoryId env (db w)) name None userId).
Proof. apply updateSenderCategory_touches. Qed.

(** ** Other users *)

Lemma isolates_refl userId w : isolates userId w w.
Proof. split; intros; tauto. Qed.

Lemma isolates_trans userId w1 w2 w3 :
  isolates userId w1 w2 -> isolates userId w2 w3 -> isolates userId w1 w3.
Proof.
  intros [A1 B1] [A2 B2]. split.
  - intros row H. rewrite (A2 row H). apply A1, H.
  - intros c H. rewrite (B2 c H). apply B1, H.
Qed.

Lemma isolates_same_tables userId w w' :
  newsletters (db w') = newsletters (db w) ->
  categories (db w') = categories (db w) ->
  isolates userId w w'.
Proof. intros H1 H2. split; intros; rewrite ?H1, ?H2; tauto. Qed.

(** A relation that the first computation keeps and the second keeps from
    every world is kept by their sequence. *)
Lemma bind_keeps A B (R : World -> World -> Prop) (m : M A) (k : A -> M B) w :
  (forall w1 w2 w3, R w1 w2 -> R w2 w3 -> R w1 w3) ->
  R w (snd (m w)) ->
  (forall a w1, R w1 (snd (k a w1))) ->
  R w (snd (bind m k w)).
Proof.
  intros Htrans Hm Hk. unfold bind.
  destruct (m w) as [[a|e] w1]; simpl in *.
  - eapply Htrans; [exact Hm|apply Hk].
  - exact Hm.
Qed.

Lemma call_isolates A userId e (answer : World -> outcome A) w :
  isolates userId w (snd (call e answer w)).
Proof. unfold call; simpl. now apply isolates_same_tables. Qed.

Lemma updateSenderCategory_isolates env userId sender cats name w :
  isolates userId w (snd (updateSenderCategory env userId sender cats name w)).
Proof.
  destruct (updateSenderCategory_touches env userId sender cats name w)
    as (_ & _ & Hrows & Hkeep & Hadd).
  split.
  - intros row Hrow. apply Hrows. unfold Prisma.same_key.
    destruct (nl_userId row =? userId)%string eqn:E.
    + apply String.eqb_eq in E. contradiction.
    + apply andb_false_r.
  - intros c Hc. split; [|apply Hkeep].
    intros H. destruct (Hadd c H) as [H1| ->]; [exact H1|].
    simpl in Hc. contradiction.
Qed.

Lemma saveResult_isolates env cats userId r n w :
  isolates userId w (snd (saveResult env cats userId r n w)).
Proof.
  unfold saveResult.
  destruct (r_category r) as [name|]; [|apply isolates_refl].
  destruct (name =? EmptyString)%string; [apply isolates_refl|].
  apply bind_keeps.
  - apply isolates_trans.
  - apply updateSenderCategory_isolates.
  - intros; apply isolates_refl.
Qed.

Lemma categorizeNewSenders_isolates env senders existing sendersMap user cats
  userId w :
  isolates userId w
    (snd (categorizeNewSenders env senders existing sendersMap user cats
            userId w)).
Proof.
  unfold categorizeNewSenders, categorizeWithAi.
  apply bind_keeps; [apply isolates_trans| |].
  - apply bind_keeps; [apply isolates_trans|apply call_isolates|].
    intros; apply isolates_refl.
  - intros results w1.
    apply bind_keeps; [apply isolates_trans| |intros; apply isolates_refl].
    apply for_of_keeps.
    + apply isolates_refl.
    + apply isolates_trans.
    + intros; apply saveResult_isolates.
Qed.

Lemma categorizeUnknownSenders_isolates env unknownSenders sendersMap gmail
  user cats userId w :
  isolates userId w
    (snd (categorizeUnknownSenders env unknownSenders sendersMap gmail user
            cats userId w)).
Proof.
  unfold categorizeUnknownSenders. apply for_of_keeps.
  - apply isolates_refl.
  - apply isolates_trans.
  - intros sender n w0. unfold categorizeUnknownSender.
    apply bind_keeps; [apply isolates_trans| |].
    + unfold previousEmailsOf. destruct (Nat.eqb _ 0).
      * unfold getPreviousEmails.
        apply bind_keeps; [apply isolates_trans|apply call_isolates|].
        intros; apply isolates_refl.
      * apply isolates_refl.
    + intros previousEmails w1.
      apply bind_keeps; [apply isolates_trans|apply call_isolates|].
      intros [category|] w2; [|apply isolates_refl].
      apply bind_keeps; [apply isolates_trans| |intros; apply isolates_refl].
      apply updateSenderCategory_isolates.
Qed.

(** X9: however a run for a user ends, the assignment rows and the
    categories of every other user are as they were before it. *)
Theorem run_isolates_other_users env userId pageToken w :
  (forall row,
      nl_userId row <> userId ->
      In row (newsletters (db (snd (categorizeSenders env userId pageToken w))))
      <-> In row (newsletters (db w))) /\
  (forall c,
      cat_userId c <> userId ->
      In c (categories (db (snd (categorizeSenders env userId pageToken w))))
      <-> In c (categories (db w))).
Proof.
  change (isolates userId w (snd (categorizeSenders env userId pageToken w))).
  unfold categorizeSenders.
  apply bind_keeps; [apply isolates_trans| |].
  { destruct (validateUserAndAiAccess env w userId); apply isolates_refl. }
  intros [err|[user accessToken]] w0; [apply isolates_refl|].
  apply bind_keeps; [apply isolates_trans| |].
  { unfold getCategories, Prisma.getUserCategories, bind, ret.
    destruct (Nat.eqb _ 0); apply isolates_refl. }
  intros [err|cats] w1; [apply isolates_refl|].
  apply bind_keeps; [apply isolates_trans| |].
  { unfold findAndPrepareSenders.
    apply bind_keeps; [apply isolates_trans|apply call_isolates|].
    intros; apply isolates_refl. }
  intros [[senders sendersResult] dateRange] w2.
  apply bind_keeps; [apply isolates_trans|apply isolates_refl|].
  intros existing w3.
  apply bind_keeps;
    [apply isolates_trans|apply categorizeNewSenders_isolates|].
  intros [results initialCount] w4.
  apply bind_keeps;
    [apply isolates_trans|apply categorizeUnknownSenders_isolates|].
  intros unknownCount w5.
  apply bind_keeps; [apply isolates_trans| |].
  { unfold Prisma.user_update.
    destruct (Prisma.update_first _ _ _); simpl;
      now apply isolates_same_tables. }
  intros [] w6.
  apply bind_keeps; [apply isolates_trans|apply call_isolates|].
  intros; apply isolates_refl.
Qed.





(** ** How a run ends *)

(** X11: a run resolves to an error value only for the error of the access
    check or for an empty catalog, and then it has made no external call and
    no write: the world is as it was. *)
Theorem run_error_leaves_world env userId pageToken w err w' :
  categorizeSenders env userId pageToken w = (Returned (inl err), w') ->
  w' = w /\
  (validateUserAndAiAccess env w userId = Returned (inl err) \/
   (exists user tok,
       validateUserAndAiAccess env w userId = Returned (inr (user, tok))) /\
   err = mkError "No categories found" /\
   Prisma.getUserCategories userId w = (Returned [], w)).
Proof.
  unfold categorizeSenders. intros H.
  apply bind_inv in H as [userResult [w0 [Hv H]]].
  injection Hv as Hv <-.
  destruct userResult as [err0|[user tok]].
  - unfold ret in H. injection H as <- <-. auto.
  - apply bind_inv in H as [categoriesResult [w1 [Hc H]]].
    unfold getCategories, Prisma.getUserCategories, bind, ret in Hc.
    destruct (Nat.eqb _ 0) eqn:E; injection Hc as <- <-.
    + unfold ret in H. injection H as <- <-.
      split; [reflexivity|]. right.
      split; [now exists user, tok|]. split; [reflexivity|].
      unfold Prisma.getUserCategories.
      now rewrite (length_zero_nil _ E).
    + apply bind_inv in H as [[[senders sendersResult] dateRange] [w2 [_ H]]].
      apply bind_inv in H as [existing [w3 [_ H]]].
      apply bind_inv in H as [[results initialCount] [w4 [_ H]]].
      apply bind_inv in H as [unknownCount [w5 [_ H]]].
      apply bind_inv in H as [[] [w6 [_ H]]].
      apply bind_inv in H as [[] [w7 [_ H]]].
      discriminate H.
Qed.

Lemma run_error_leaves_world_witness :
  Scenario.withoutCategories = Scenario.withoutCategories /\
  (validateUserAndAiAccess Scenario.quiet Scenario.withoutCategories "u1"
   = Returned (inl (mkError "No categories found")) \/
   (exists user tok,
       validateUserAndAiAccess Scenario.quiet Scenario.withoutCategories "u1"
       = Returned (inr (user, tok))) /\
   mkError "No categories found" = mkError "No categories found" /\
   Prisma.getUserCategories "u1" Scenario.withoutCategories
   = (Returned [], Scenario.withoutCategories)).
Proof.
  apply (@run_error_leaves_world Scenario.quiet "u1" None
           Scenario.withoutCategories (mkError "No categories found")
           Scenario.withoutCategories).
  reflexivity.
Defined.

Lemma categorizeNewSenders_results env senders existing sendersMap user cats
  userId w results count w' :
  categorizeNewSenders env senders existing sendersMap user cats userId w
  = (Returned (results, count), w') ->
  exists aiResults,
    results =
    preCategorizeSendersWithStaticRules env
      (uniq (sendersToCategorize senders existing)) ++ aiResults.
Proof.
  unfold categorizeNewSenders. intros H.
  apply bind_inv in H as [results0 [w1 [Hai H]]].
  apply bind_inv in H as [k [w2 [_ H]]].
  unfold ret in H. injection H as <- _ _.
  unfold categorizeWithAi in Hai.
  apply bind_inv in Hai as [aiResults [w0 [_ Hai]]].
  unfold ret in Hai. injection Hai as <- _.
  exists aiResults. rewrite JsMap_keys_of_entries_eq.
  rewrite map_map. simpl. now rewrite map_id.
Qed.

(** The senders named in the batch request of the first pass. *)
Lemma categorizeNewSenders_request_senders env senders existing sendersMap :
  map fst
    (aiRequest
       (JsMap.of_entries
          (map (fun sender => (sender, snippetsOf sendersMap sender))
             (sendersToCategorize senders existing)))
       (preCategorizeSendersWithStaticRules env
          (JsMap.keys
             (JsMap.of_entries
                (map (fun sender => (sender, snippetsOf sendersMap sender))
                   (sendersToCategorize senders existing))))))
  = filter (noStaticRule env) (uniq (sendersToCategorize senders existing)).
Proof.
  unfold aiRequest. rewrite map_map. simpl. rewrite map_id.
  rewrite sendersToCategorizeWithAi_static, JsMap_keys_of_entries_eq.
  rewrite map_map. simpl. now rewrite map_id.
Qed.

(** The calls of a run that resolves to a count, with the lookup and the
    results of the first pass they depend on. *)
Lemma categorizeSenders_calls env userId pageToken w user tok sr res w' :
  validateUserAndAiAccess env w userId = Returned (inr (user, tok)) ->
  findSenders env w (getGmailClient tok) tok 20 pageToken
    (oldestCategorizedEmailTime user) (newestCategorizedEmailTime user)
  = Returned sr ->
  categorizeSenders env userId pageToken w = (Returned (inr res), w') ->
  let senders := uniq (JsMap.keys (sr_senders sr)) in
  exists existing aiResults request events,
    getExistingSenders senders userId w = (Returned existing, w) /\
    map fst request
    = filter (noStaticRule env) (uniq (sendersToCategorize senders existing)) /\
    trace w' =
    trace w ++
    [EvFindSenders 20 pageToken (oldestCategorizedEmailTime user)
       (newestCategorizedEmailTime user);
     EvAiCategorizeSenders request] ++
    events ++ [EvRevalidatePath "/smart-categories"] /\
    Forall (fallbackEvent (sr_senders sr)) events /\
    asked events =
    map r_sender
      (unknownSendersOf
         (preCategorizeSendersWithStaticRules env
            (uniq (sendersToCategorize senders existing)) ++ aiResults)
         existing).
Proof.
  intros Hv Hf Hrun senders.
  destruct (@categorizeSenders_stages _ _ _ _ _ _ _ _ _ Hv Hf Hrun)
    as (existing & results & n1 & w3 & n2 & w4 & w5
        & Hex & Hfirst & Hsecond & Hupd & -> & _).
  fold senders in Hex, Hfirst.
  destruct (categorizeNewSenders_results _ _ _ _ _ _ _ _ Hfirst)
    as [aiResults ->].
  pose proof (categorizeNewSenders_trace env senders existing (sr_senders sr)
                user
                (filter (fun c => cat_userId c =? userId)%string
                   (categories (db w)))
                userId
                (emit w (EvFindSenders 20 pageToken
                           (oldestCategorizedEmailTime user)
                           (newestCategorizedEmailTime user)))) as Ht3.
  rewrite Hfirst in Ht3. simpl in Ht3.
  pose proof (for_of_keeps (adds (fallbackEvent (sr_senders sr)))
                (categorizeUnknownSender env (sr_senders sr)
                   (getGmailClient tok) user
                   (filter (fun c => cat_userId c =? userId)%string
                      (categories (db w)))
                   userId)
                (adds_refl _) (@adds_trans _)
                (categorizeUnknownSender_adds env (sr_senders sr)
                   (getGmailClient tok) user
                   (filter (fun c => cat_userId c =? userId)%string
                      (categories (db w)))
                   userId)
                (unknownSendersOf
                   (preCategorizeSendersWithStaticRules env
                      (uniq (sendersToCategorize senders existing))
                    ++ aiResults) existing) 0 w3) as Hadds.
  unfold categorizeUnknownSenders in Hsecond.
  rewrite Hsecond in Hadds. simpl in Hadds.
  destruct Hadds as [events [Ht4 Hall]].
  apply fallback_loop_returned in Hsecond as [[events' [Ht4' Hasked]] _].
  assert (events' = events) as ->.
  { rewrite Ht4 in Ht4'. now apply app_inv_head in Ht4'. }
  assert (Ht5 : trace w5 = trace w4).
  { unfold Prisma.user_update in Hupd.
    destruct (Prisma.update_first _ _ _); [|discriminate Hupd].
    now injection Hupd as <-. }
  unfold getExistingSenders, Prisma.newsletter_findMany in Hex.
  injection Hex as Hex.
  exists existing, aiResults. eexists. exists events.
  split.
  { unfold getExistingSenders, Prisma.newsletter_findMany.
    simpl in Hex. now rewrite Hex. }
  split; [apply categorizeNewSenders_request_senders|].
  split.
  { simpl. rewrite Ht5, Ht4, Ht3. rewrite <- !app_assoc. reflexivity. }
  split; [exact Hall|exact Hasked].
Qed.

(** X12: a run that resolves to a count has asked the reader once, for 20
    senders with the caller's page token and the validated user's watermark
    as window, then sent one batch request, then made only calls of the
    second pass, and revalidated "/smart-categories" last; it hands the
    reader's next page token back unchanged. *)
Theorem run_calls_in_order env userId pageToken w user tok sr res w' :
  validateUserAndAiAccess env w userId = Returned (inr (user, tok)) ->
  findSenders env w (getGmailClient tok) tok 20 pageToken
    (oldestCategorizedEmailTime user) (newestCategorizedEmailTime user)
  = Returned sr ->
  categorizeSenders env userId pageToken w = (Returned (inr res), w') ->
  (exists request events,
      trace w' =
      trace w ++
      [EvFindSenders 20 pageToken (oldestCategorizedEmailTime user)
         (newestCategorizedEmailTime user);
       EvAiCategorizeSenders request] ++
      events ++ [EvRevalidatePath "/smart-categories"] /\
      Forall (fallbackEvent (sr_senders sr)) events) /\
  nextPageToken res = sr_nextPageToken sr.
Proof.
  intros Hv Hf Hrun. split.
  - destruct (@categorizeSenders_calls _ _ _ _ _ _ _ _ _ Hv Hf Hrun)
      as (existing & aiResults & request & events & _ & _ & Ht & Hall & _).
    now exists request, events.
  - destruct (@categorizeSenders_stages _ _ _ _ _ _ _ _ _ Hv Hf Hrun)
      as (existing & results & n1 & w3 & n2 & w4 & w5
          & _ & _ & _ & _ & _ & ->).
    reflexivity.
Qed.

Lemma run_calls_in_order_witness :
  (exists request events,
      trace (snd (categorizeSenders Scenario.insufficient "u1" None
                    Scenario.start)) =
      trace Scenario.start ++
      [EvFindSenders 20 None (oldestCategorizedEmailTime Scenario.alice)
         (newestCategorizedEmailTime Scenario.alice);
       EvAiCategorizeSenders request] ++
      events ++ [EvRevalidatePath "/smart-categories"] /\
      Forall (fallbackEvent (sr_senders (Scenario.oneFound "x@corp.example")))
        events) /\
  nextPageToken (mkCategorized 1 None)
  = sr_nextPageToken (Scenario.oneFound "x@corp.example").
Proof.
  apply (@run_calls_in_order Scenario.insufficient "u1" None Scenario.start
           Scenario.alice "token" (Scenario.oneFound "x@corp.example")
           (mkCategorized 1 None)); reflexivity.
Defined.

(** X13: in a run that resolves to a count, a discovered sender that has a
    personal email domain and no stored assignment for the user is not named
    in the batch request, and the single-sender classifier is asked about it
    in the second pass. *)
Theorem personal_domain_goes_to_second_pass env userId pageToken w user tok sr
  res w' sender :
  validateUserAndAiAccess env w userId = Returned (inr (user, tok)) ->
  findSenders env w (getGmailClient tok) tok 20 pageToken
    (oldestCategorizedEmailTime user) (newestCategorizedEmailTime user)
  = Returned sr ->
  categorizeSenders env userId pageToken w = (Returned (inr res), w') ->
  In sender (JsMap.keys (sr_senders sr)) ->
  hasPersonalEmailDomain sender = true ->
  (forall row, In row (newsletters (db w)) ->
               Prisma.same_key sender userId row = false) ->
  exists request events,
    trace w' =
    trace w ++
    [EvFindSenders 20 pageToken (oldestCategorizedEmailTime user)
       (newestCategorizedEmailTime user);
     EvAiCategorizeSenders request] ++
    events ++ [EvRevalidatePath "/smart-categories"] /\
    ~ In sender (map fst request) /\
    In sender (asked events).
Proof.
  intros Hv Hf Hrun Hkey Hpersonal Hnew.
  destruct (@categorizeSenders_calls _ _ _ _ _ _ _ _ _ Hv Hf Hrun)
    as (existing & aiResults & request & events
        & Hex & Hreq & Ht & _ & Hasked).
  exists request, events. split; [exact Ht|].
  assert (Hlisted : In sender
                      (uniq (sendersToCategorize
                               (uniq (JsMap.keys (sr_senders sr))) existing))).
  { unfold uniq at 1. apply uniq_from_In. split; [|tauto].
    unfold sendersToCategorize. apply filter_In. split.
    - unfold uniq. apply uniq_from_In. tauto.
    - apply negb_true_iff.
      destruct (existsb _ existing) eqn:E; [|reflexivity].
      apply existsb_exists in E as [x [Hx Heq]].
      apply String.eqb_eq in Heq.
      unfold getExistingSenders, Prisma.newsletter_findMany in Hex.
      injection Hex as Hex. rewrite <- Hex in Hx.
      apply in_map_iff in Hx as [row [Hrow Hin]].
      apply filter_In in Hin as [Hin Hcond].
      apply andb_true_iff in Hcond as [_ Huser].
      pose proof (Hnew row Hin) as Hno. unfold Prisma.same_key in Hno.
      rewrite Huser in Hno. rewrite <- Hrow in Heq. simpl in Heq.
      rewrite Heq, String.eqb_refl in Hno. discriminate Hno. }
  split.
  - rewrite Hreq. intros Hin. apply filter_In in Hin as [_ Hno].
    unfold noStaticRule in Hno. rewrite Hpersonal in Hno. discriminate Hno.
  - rewrite Hasked. apply in_map_iff.
    exists (mkResult sender (Some defaultCategory_UNKNOWN_name)).
    split; [reflexivity|].
    apply unknownSendersOf_complete; [reflexivity|]. left.
    apply in_or_app. left.
    unfold preCategorizeSendersWithStaticRules. apply in_map_iff.
    exists sender. split; [|exact Hlisted].
    rewrite staticRule_first_match. now rewrite Hpersonal.
Qed.

Lemma personal_domain_goes_to_second_pass_witness :
  exists request events,
    trace (snd (categorizeSenders
                  (Scenario.collaborators (Scenario.oneFound "A <a@gmail.com>")
                     [] (fun _ => Returned None))
                  "u1" None Scenario.start)) =
    trace Scenario.start ++
    [EvFindSenders 20 None (oldestCategorizedEmailTime Scenario.alice)
       (newestCategorizedEmailTime Scenario.alice);
     EvAiCategorizeSenders request] ++
    events ++ [EvRevalidatePath "/smart-categories"] /\
    ~ In "A <a@gmail.com>" (map fst request) /\
    In "A <a@gmail.com>" (asked events).
Proof.
  apply (@personal_domain_goes_to_second_pass
           (Scenario.collaborators (Scenario.oneFound "A <a@gmail.com>")
              [] (fun _ => Returned None))
           "u1" None Scenario.start Scenario.alice "token"
           (Scenario.oneFound "A <a@gmail.com>") (mkCategorized 1 None)).
  - reflexivity.
  - reflexivity.
  - reflexivity.
  - simpl; auto.
  - reflexivity.
  - intros row [].
Defined.

(** ** Lookup after assignment *)

(** X14: after a call of [updateSenderCategory] that returns, the lookup of
    stored assignments over any list of senders finds the sender if the list
    has it, so the sender is never among the senders to categorize of a
    first pass that is given this lookup. *)
Theorem assigned_sender_is_not_new env userId sender cats name w assigned w'
  senders existing :
  updateSenderCategory env userId sender cats name w = (Returned assigned, w') ->
  getExistingSenders senders userId w' = (Returned existing, w') ->
  (In sender senders -> In sender (map Prisma.email existing)) /\
  ~ In sender (sendersToCategorize senders existing).
Proof.
  intros Hup Hex.
  assert (Hfound : In sender senders ->
                   In sender (map Prisma.email existing)).
  { intros Hin.
    pose proof (updateSenderCategory_assigns _ _ _ _ _ _ Hup) as Hhas.
    unfold hasAssignment in Hhas.
    apply existsb_exists in Hhas as [row [Hrow Hkey]].
    unfold Prisma.same_key in Hkey.
    apply andb_true_iff in Hkey as [He Hu].
    apply String.eqb_eq in He. apply String.eqb_eq in Hu.
    rewrite <- He in Hin.
    destruct (@getExistingSenders_complete senders userId w' row Hrow Hu Hin)
      as (existing' & category & Hex' & Hentry).
    rewrite Hex in Hex'. injection Hex' as <-.
    apply in_map_iff. exists (Prisma.mkExisting (nl_email row) category).
    split; [exact He|exact Hentry]. }
  split; [exact Hfound|].
  intros Hin. apply sendersToCategorize_new in Hin as [Hin Hno].
  apply Hno, Hfound, Hin.
Qed.

Lemma assigned_sender_is_not_new_witness :
  (In "x@corp.example" ["x@corp.example"; "y@corp.example"] ->
   In "x@corp.example"
     (map Prisma.email
        [Prisma.mkExisting "x@corp.example" (Some ("Personal", None))])) /\
  ~ In "x@corp.example"
      (sendersToCategorize ["x@corp.example"; "y@corp.example"]
         [Prisma.mkExisting "x@corp.example" (Some ("Personal", None))]).
Proof.
  apply (@assigned_sender_is_not_new Scenario.quiet "u1" "x@corp.example"
           [Scenario.personal] "Personal" Scenario.start
           (mkAssigned None (mkNewsletter "x@corp.example" "u1" (Some "c1")))
           (snd (updateSenderCategory Scenario.quiet "u1" "x@corp.example"
                   [Scenario.personal] "Personal" Scenario.start))
           ["x@corp.example"; "y@corp.example"]
           [Prisma.mkExisting "x@corp.example" (Some ("Personal", None))]);
    reflexivity.
Defined.

(** ** The single-sender entry point *)

(** The row a call of [updateSenderCategory] returns. *)
Lemma updateSenderCategory_row env userId sender cats name w assigned w' :
  updateSenderCategory env userId sender cats name w = (Returned assigned, w') ->
  Prisma.same_key sender userId (newsletter assigned) = true /\
  In (newsletter assigned) (newsletters (db w')) /\
  (exists cid, nl_categoryId (newsletter assigned) = Some cid) /\
  trace w' = trace w.
Proof.
  unfold updateSenderCategory, bind, ret, Prisma.category_create,
    Prisma.newsletter_upsert.
  destruct (find _ cats) as [c|]; simpl.
  - pose proof (upsert_row_result sender userId (cat_id c)
                  (newsletters (db w))) as (H1 & H2 & H3).
    destruct (Prisma.upsert_row _ _ _ _) as [n rows]; simpl in *.
    intros H. injection H as <- <-. simpl. eauto.
  - destruct (existsb _ (categories (db w))); simpl; [discriminate|].
    pose proof (upsert_row_result sender userId (newCategoryId env (db w))
                  (newsletters (db w))) as (H1 & H2 & H3).
    destruct (Prisma.upsert_row _ _ _ _) as [n rows]; simpl in *.
    intros H. injection H as <- <-. simpl. eauto.
Qed.

(** X15: when [categorizeSender] returns an undefined category id it has
    written nothing; when it returns a category id, the sender has an
    assignment row for the user with that category id.  Unless the user has
    no category, in which case nothing is called, it has fetched three
    threads of the sender and asked the single-sender classifier once. *)
Theorem categorizeSender_returned env senderAddress user gmail w result w' :
  categorizeSender env senderAddress user gmail w = (Returned result, w') ->
  match categoryId result with
  | None => db w' = db w
  | Some cid =>
      exists row,
        In row (newsletters (db w')) /\
        Prisma.same_key senderAddress (user_id user) row = true /\
        nl_categoryId row = Some cid
  end /\
  (Prisma.getUserCategories (user_id user) w = (Returned [], w) /\ w' = w \/
   exists previousEmails,
     trace w' =
     trace w ++
     [EvGetThreadsFromSender senderAddress 3;
      EvAiCategorizeSender senderAddress previousEmails]).
Proof.
  unfold categorizeSender. intros H.
  apply bind_inv in H as [cats [w0 [Hc H]]].
  unfold Prisma.getUserCategories in Hc. injection Hc as <- <-.
  destruct (Nat.eqb _ 0) eqn:E.
  - unfold ret in H. injection H as <- <-. simpl.
    split; [reflexivity|]. left. split; [|reflexivity].
    unfold Prisma.getUserCategories. now rewrite (length_zero_nil _ E).
  - apply bind_inv in H as [previousEmails [w1 [Hprev H]]].
    unfold getPreviousEmails, bind, call, ret in Hprev.
    destruct (getThreadsFromSender env w gmail senderAddress 3);
      [|discriminate Hprev].
    injection Hprev as <- <-.
    apply bind_inv in H as [aiResult [w2 [Hai H]]].
    unfold call in Hai.
    destruct (aiCategorizeSender _ _ _ _ _ _) as [answer|e];
      [|discriminate Hai].
    injection Hai as <- <-.
    destruct answer as [category|].
    + apply bind_inv in H as [assigned [w3 [Hup H]]].
      unfold ret in H. injection H as <- <-. simpl.
      apply updateSenderCategory_row in Hup
        as (Hkey & Hin & [cid Hcid] & Ht).
      rewrite Hcid. split.
      * exists (newsletter assigned). auto.
      * right. eexists. rewrite Ht. simpl. rewrite <- app_assoc. reflexivity.
    + unfold ret in H. injection H as <- <-. simpl.
      split; [reflexivity|]. right. eexists.
      rewrite <- app_assoc. reflexivity.
Qed.

Lemma categorizeSender_returned_witness :
  match categoryId (mkCategoryId (Some "c1")) with
  | None =>
      db (snd (categorizeSender (Scenario.downFor "a@corp.example")
                 "b@corp.example" Scenario.alice (getGmailClient "token")
                 Scenario.start))
      = db Scenario.start
  | Some cid =>
      exists row,
        In row
          (newsletters
             (db (snd (categorizeSender (Scenario.downFor "a@corp.example")
                         "b@corp.example" Scenario.alice
                         (getGmailClient "token") Scenario.start)))) /\
        Prisma.same_key "b@corp.example" (user_id Scenario.alice) row = true /\
        nl_categoryId row = Some cid
  end /\
  (Prisma.getUserCategories (user_id Scenario.alice) Scenario.start
   = (Returned [], Scenario.start) /\
   snd (categorizeSender (Scenario.downFor "a@corp.example")
          "b@corp.example" Scenario.alice (getGmailClient "token")
          Scenario.start)
   = Scenario.start \/
   exists previousEmails,
     trace (snd (categorizeSender (Scenario.downFor "a@corp.example")
                   "b@corp.example" Scenario.alice (getGmailClient "token")
                   Scenario.start)) =
     trace Scenario.start ++
     [EvGetThreadsFromSender "b@corp.example" 3;
      EvAiCategorizeSender "b@corp.example" previousEmails]).
Proof.
  apply (@categorizeSender_returned (Scenario.downFor "a@corp.example")
           "b@corp.example" Scenario.alice (getGmailClient "token")
           Scenario.start (mkCategoryId (Some "c1"))).
  reflexivity.
Defined.

(** ** An empty page *)

(** X16: a page without senders is no error: when the batch classifier
    answers the empty request with no result, the run still sends that one
    empty request, makes no call of the second pass, writes no category and
    no assignment, and resolves to a count of zero with the reader's next
    page token. *)
Theorem empty_page_run env userId pageToken w user tok sr u :
  validateUserAndAiAccess env w userId = Returned (inr (user, tok)) ->
  filter (fun c => cat_userId c =? userId)%string (categories (db w)) <> [] ->
  findSenders env w (getGmailClient tok) tok 20 pageToken
    (oldestCategorizedEmailTime user) (newestCategorizedEmailTime user)
  = Returned sr ->
  sr_senders sr = [] ->
  aiCategorizeSenders env
    (emit w (EvFindSenders 20 pageToken (oldestCategorizedEmailTime user)
               (newestCategorizedEmailTime user)))
    user []
    (filter (fun c => cat_userId c =? userId)%string (categories (db w)))
  = Returned [] ->
  Prisma.find_user (user_id user) (db w) = Some u ->
  exists w',
    categorizeSenders env userId pageToken w
    = (Returned (inr (mkCategorized 0 (sr_nextPageToken sr))), w') /\
    categories (db w') = categories (db w) /\
    newsletters (db w') = newsletters (db w) /\
    trace w' =
    trace w ++
    [EvFindSenders 20 pageToken (oldestCategorizedEmailTime user)
       (newestCategorizedEmailTime user);
     EvAiCategorizeSenders [];
     EvRevalidatePath "/smart-categories"].
Proof.
  intros Hv Hcats Hf Hempty Hai Hu.
  set (cats := filter (fun c => cat_userId c =? userId)%string
                 (categories (db w))) in *.
  set (w1 := emit w (EvFindSenders 20 pageToken
                       (oldestCategorizedEmailTime user)
                       (newestCategorizedEmailTime user))) in *.
  assert (H1 : getCategories userId w = (Returned (inr cats), w)).
  { unfold getCategories, Prisma.getUserCategories, bind, ret. fold cats.
    destruct cats; [contradiction|reflexivity]. }
  assert (H2 : findAndPrepareSenders env (getGmailClient tok) tok
                 (oldestCategorizedEmailTime user)
                 (newestCategorizedEmailTime user) pageToken w
               = (Returned ([], sr, sr_dateRange sr), w1)).
  { unfold findAndPrepareSenders, bind, call, ret. rewrite Hf, Hempty.
    reflexivity. }
  assert (H3 : getExistingSenders [] userId w1 = (Returned [], w1)).
  { unfold getExistingSenders, Prisma.newsletter_findMany. simpl.
    induction (newsletters (db w)) as [|r rest IH]; [reflexivity|exact IH]. }
  assert (H4 : categorizeNewSenders env [] [] (sr_senders sr) user cats
                 userId w1
               = (Returned ([], 0), emit w1 (EvAiCategorizeSenders []))).
  { unfold categorizeNewSenders, categorizeWithAi.
    change (sendersToCategorize [] []) with (@nil string).
    change (JsMap.of_entries
              (map (fun sender => (sender, snippetsOf (sr_senders sr) sender))
                 []))
      with (@nil (string * list string)).
    change (JsMap.keys (@nil (string * list string))) with (@nil string).
    change (preCategorizeSendersWithStaticRules env [])
      with (@nil SenderResult).
    change (aiRequest [] []) with (@nil (string * list string)).
    unfold bind at 1. unfold bind at 1. unfold call. rewrite Hai.
    reflexivity. }
  pose proof (update_first_find (user_id user)
                (Prisma.mkUserUpdate
                   (nullish_undefined (newestDate (sr_dateRange sr)))
                   (nullish_undefined (oldestDate (sr_dateRange sr))))
                (users (db w))) as Hup.
  unfold Prisma.find_user in Hu. rewrite Hu in Hup.
  destruct Hup as [rows' [Hup _]].
  unfold categorizeSenders.
  unfold bind at 1. rewrite Hv.
  erewrite bind_returned; [|exact H1]. cbv iota.
  erewrite bind_returned; [|exact H2]. cbv iota beta.
  erewrite bind_returned; [|exact H3].
  erewrite bind_returned; [|exact H4]. cbv iota beta.
  change (unknownSendersOf [] []) with (@nil SenderResult).
  unfold categorizeUnknownSenders. simpl for_of.
  unfold bind, ret, call, Prisma.user_update. simpl.
  rewrite Hup.
  eexists. split; [reflexivity|]. simpl.
  split; [reflexivity|]. split; [reflexivity|].
  rewrite <- !app_assoc. reflexivity.
Qed.

Lemma empty_page_run_witness :
  exists w',
    categorizeSenders (Scenario.observing (mkRange None None)) "u1" None
      Scenario.start
    = (Returned
         (inr (mkCategorized 0
                 (sr_nextPageToken
                    (Scenario.nothingFound (mkRange None None))))), w') /\
    categories (db w') = categories (db Scenario.start) /\
    newsletters (db w') = newsletters (db Scenario.start) /\
    trace w' =
    trace Scenario.start ++
    [EvFindSenders 20 None (oldestCategorizedEmailTime Scenario.alice)
       (newestCategorizedEmailTime Scenario.alice);
     EvAiCategorizeSenders [];
     EvRevalidatePath "/smart-categories"].
Proof.
  apply (@empty_page_run (Scenario.observing (mkRange None None)) "u1" None
           Scenario.start Scenario.alice "token"
           (Scenario.nothingFound (mkRange None None)) Scenario.alice);
    try reflexivity.
  simpl. discriminate.
Defined.

(** ** Who is asked about in the second pass *)

(** A discovered sender without a stored assignment is among the senders to
    categorize. *)
Lemma new_sender_listed senders userId w existing sender :
  getExistingSenders senders userId w = (Returned existing, w) ->
  In sender senders ->
  (forall row, In row (newsletters (db w)) ->
               Prisma.same_key sender userId row = false) ->
  In sender (uniq (sendersToCategorize senders existing)).
Proof.
  intros Hex Hin Hnew.
  unfold uniq. apply uniq_from_In. split; [|tauto].
  unfold sendersToCategorize. apply filter_In. split; [exact Hin|].
  apply negb_true_iff.
  destruct (existsb _ existing) eqn:E; [|reflexivity].
  apply existsb_exists in E as [x [Hx Heq]].
  apply String.eqb_eq in Heq.
  unfold getExistingSenders, Prisma.newsletter_findMany in Hex.
  injection Hex as Hex. rewrite <- Hex in Hx.
  apply in_map_iff in Hx as [row [Hrow Hrin]].
  apply filter_In in Hrin as [Hrin Hcond].
  apply andb_true_iff in Hcond as [_ Huser].
  pose proof (Hnew row Hrin) as Hno. unfold Prisma.same_key in Hno.
  rewrite Huser in Hno. rewrite <- Hrow in Heq. simpl in Heq.
  rewrite Heq, String.eqb_refl in Hno. discriminate Hno.
Qed.

(** X17: in a run that resolves to a count, a discovered sender without a
    stored assignment that no static rule matches is named in the batch
    request and, whatever the batch classifier answered for it, the
    single-sender classifier is asked about it in the second pass. *)
Theorem unmatched_new_sender_is_asked_twice env userId pageToken w user tok sr
  res w' sender :
  validateUserAndAiAccess env w userId = Returned (inr (user, tok)) ->
  findSenders env w (getGmailClient tok) tok 20 pageToken
    (oldestCategorizedEmailTime user) (newestCategorizedEmailTime user)
  = Returned sr ->
  categorizeSenders env userId pageToken w = (Returned (inr res), w') ->
  In sender (JsMap.keys (sr_senders sr)) ->
  noStaticRule env sender = true ->
  (forall row, In row (newsletters (db w)) ->
               Prisma.same_key sender userId row = false) ->
  exists request events,
    trace w' =
    trace w ++
    [EvFindSenders 20 pageToken (oldestCategorizedEmailTime user)
       (newestCategorizedEmailTime user);
     EvAiCategorizeSenders request] ++
    events ++ [EvRevalidatePath "/smart-categories"] /\
    In sender (map fst request) /\
    In sender (asked events).
Proof.
  intros Hv Hf Hrun Hkey Hnone Hnew.
  destruct (@categorizeSenders_calls _ _ _ _ _ _ _ _ _ Hv Hf Hrun)
    as (existing & aiResults & request & events
        & Hex & Hreq & Ht & _ & Hasked).
  exists request, events. split; [exact Ht|].
  assert (Hlisted : In sender
                      (uniq (sendersToCategorize
                               (uniq (JsMap.keys (sr_senders sr))) existing))).
  { apply (@new_sender_listed _ userId w); [exact Hex| |exact Hnew].
    unfold uniq. apply uniq_from_In. tauto. }
  split.
  - rewrite Hreq. apply filter_In. now split.
  - rewrite Hasked. apply in_map_iff.
    exists (mkResult sender None). split; [reflexivity|].
    apply unknownSendersOf_complete; [reflexivity|]. left.
    apply in_or_app. left.
    unfold preCategorizeSendersWithStaticRules. apply in_map_iff.
    exists sender. split; [|exact Hlisted].
    rewrite staticRule_first_match. unfold noStaticRule in Hnone.
    destruct (hasPersonalEmailDomain sender); [discriminate Hnone|].
    destruct (isNewsletterSender env sender); [discriminate Hnone|].
    destruct (isReceiptSender env sender); [discriminate Hnone|reflexivity].
Qed.

Lemma unmatched_new_sender_is_asked_twice_witness :
  exists request events,
    trace (snd (categorizeSenders
                  (Scenario.collaborators (Scenario.oneFound "x@corp.example")
                     [mkResult "x@corp.example" (Some "Personal")]
                     (fun _ => Returned None))
                  "u1" None Scenario.start)) =
    trace Scenario.start ++
    [EvFindSenders 20 None (oldestCategorizedEmailTime Scenario.alice)
       (newestCategorizedEmailTime Scenario.alice);
     EvAiCategorizeSenders request] ++
    events ++ [EvRevalidatePath "/smart-categories"] /\
    In "x@corp.example" (map fst request) /\
    In "x@corp.example" (asked events).
Proof.
  apply (@unmatched_new_sender_is_asked_twice
           (Scenario.collaborators (Scenario.oneFound "x@corp.example")
              [mkResult "x@corp.example" (Some "Personal")]
              (fun _ => Returned None))
           "u1" None Scenario.start Scenario.alice "token"
           (Scenario.oneFound "x@corp.example") (mkCategorized 1 None)).
  - reflexivity.
  - reflexivity.
  - reflexivity.
  - simpl; auto.
  - reflexivity.
  - intros row [].
Defined.

(** X18: in a run that resolves to a count, a discovered sender whose stored
    assignment for the user has no category, or the category "Unknown" or
    "request more information", is asked about in the second pass. *)
Theorem stored_unknown_sender_is_asked env userId pageToken w user tok sr res
  w' row :
  validateUserAndAiAccess env w userId = Returned (inr (user, tok)) ->
  findSenders env w (getGmailClient tok) tok 20 pageToken
    (oldestCategorizedEmailTime user) (newestCategorizedEmailTime user)
  = Returned sr ->
  categorizeSenders env userId pageToken w = (Returned (inr res), w') ->
  In row (newsletters (db w)) ->
  nl_userId row = userId ->
  In (nl_email row) (JsMap.keys (sr_senders sr)) ->
  isUnknownSender
    (mkResult (nl_email row)
       (option_map fst (Prisma.select_category (db w) row))) = true ->
  exists request events,
    trace w' =
    trace w ++
    [EvFindSenders 20 pageToken (oldestCategorizedEmailTime user)
       (newestCategorizedEmailTime user);
     EvAiCategorizeSenders request] ++
    events ++ [EvRevalidatePath "/smart-categories"] /\
    ~ In (nl_email row) (map fst request) /\
    In (nl_email row) (asked events).
Proof.
  intros Hv Hf Hrun Hrow Huser Hkey Hunknown.
  destruct (@categorizeSenders_calls _ _ _ _ _ _ _ _ _ Hv Hf Hrun)
    as (existing & aiResults & request & events
        & Hex & Hreq & Ht & _ & Hasked).
  exists request, events. split; [exact Ht|].
  assert (Hentry : In (Prisma.mkExisting (nl_email row)
                         (Prisma.select_category (db w) row)) existing).
  { unfold getExistingSenders, Prisma.newsletter_findMany in Hex.
    injection Hex as <-.
    apply in_map_iff. exists row. split; [reflexivity|].
    apply filter_In. split; [exact Hrow|].
    apply andb_true_iff. split.
    - apply existsb_eqb_In. unfold uniq. apply uniq_from_In. tauto.
    - now apply String.eqb_eq. }
  split.
  - rewrite Hreq. intros Hin. apply filter_In in Hin as [Hin _].
    unfold uniq in Hin. apply uniq_from_In in Hin as [Hin _].
    apply sendersToCategorize_new in Hin as [_ Hno].
    apply Hno. apply in_map_iff.
    now exists (Prisma.mkExisting (nl_email row)
                  (Prisma.select_category (db w) row)).
  - rewrite Hasked. apply in_map_iff.
    exists (mkResult (nl_email row)
              (option_map fst (Prisma.select_category (db w) row))).
    split; [reflexivity|].
    apply unknownSendersOf_complete; [exact Hunknown|]. right.
    now exists (Prisma.mkExisting (nl_email row)
                  (Prisma.select_category (db w) row)).
Qed.

Lemma stored_unknown_sender_is_asked_witness :
  exists request events,
    trace (snd (categorizeSenders
                  (Scenario.collaborators (Scenario.oneFound "y@corp.example")
                     [] (fun _ => Returned None))
                  "u1" None
                  (mkWorld
                     (mkDb [Scenario.personal]
                        [mkNewsletter "y@corp.example" "u1" None]
                        [Scenario.alice]) []))) =
    [] ++
    [EvFindSenders 20 None (oldestCategorizedEmailTime Scenario.alice)
       (newestCategorizedEmailTime Scenario.alice);
     EvAiCategorizeSenders request] ++
    events ++ [EvRevalidatePath "/smart-categories"] /\
    ~ In "y@corp.example" (map fst request) /\
    In "y@corp.example" (asked events).
Proof.
  apply (@stored_unknown_sender_is_asked
           (Scenario.collaborators (Scenario.oneFound "y@corp.example")
              [] (fun _ => Returned None))
           "u1" None
           (mkWorld
              (mkDb [Scenario.personal]
                 [mkNewsletter "y@corp.example" "u1" None]
                 [Scenario.alice]) [])
           Scenario.alice "token" (Scenario.oneFound "y@corp.example")
           (mkCategorized 0 None)
           (snd (categorizeSenders
                   (Scenario.collaborators
                      (Scenario.oneFound "y@corp.example")
                      [] (fun _ => Returned None))
                   "u1" None
                   (mkWorld
                      (mkDb [Scenario.personal]
                         [mkNewsletter "y@corp.example" "u1" None]
                         [Scenario.alice]) [])))
           (mkNewsletter "y@corp.example" "u1" None)).
  - reflexivity.
  - reflexivity.
  - reflexivity.
  - simpl; auto.
  - reflexivity.
  - simpl; auto.
  - reflexivity.
Defined.

(** ** The count of a run *)

Lemma categorizeNewSenders_count env senders existing sendersMap user cats
  userId w results count w' :
  categorizeNewSenders env senders existing sendersMap user cats userId w
  = (Returned (results, count), w') ->
  count = length (filter (fun r => truthy (r_category r)) results).
Proof.
  unfold categorizeNewSenders. intros H.
  apply bind_inv in H as [results0 [w1 [_ H]]].
  apply bind_inv in H as [k [w2 [Hloop H]]].
  unfold ret in H. injection H as <- <- _.
  now apply save_loop_returned in Hloop as [Hk _].
Qed.

(** X19: the count that a run resolves to is the number of results of the
    first pass that carry a category (the static results and what the batch
    classifier answered to the request alike) plus at most one for every
    entry of the input of the second pass. *)
Theorem run_count_bounds env userId pageToken w user tok sr res w' :
  validateUserAndAiAccess env w userId = Returned (inr (user, tok)) ->
  findSenders env w (getGmailClient tok) tok 20 pageToken
    (oldestCategorizedEmailTime user) (newestCategorizedEmailTime user)
  = Returned sr ->
  categorizeSenders env userId pageToken w = (Returned (inr res), w') ->
  exists existing aiResults,
    getExistingSenders (uniq (JsMap.keys (sr_senders sr))) userId w
    = (Returned existing, w) /\
    aiCategorizeSenders env
      (emit w (EvFindSenders 20 pageToken (oldestCategorizedEmailTime user)
                 (newestCategorizedEmailTime user)))
      user
      (map (fun s => (s, snippetsOf (sr_senders sr) s))
         (filter (noStaticRule env)
            (uniq (sendersToCategorize (uniq (JsMap.keys (sr_senders sr)))
                     existing))))
      (filter (fun c => cat_userId c =? userId)%string (categories (db w)))
    = Returned aiResults /\
    let results :=
      preCategorizeSendersWithStaticRules env
        (uniq (sendersToCategorize (uniq (JsMap.keys (sr_senders sr)))
                 existing)) ++ aiResults in
    let saved := length (filter (fun r => truthy (r_category r)) results) in
    saved <= categorizedCount res
    <= saved + length (unknownSendersOf results existing).
Proof.
  intros Hv Hf Hrun.
  destruct (@categorizeSenders_stages _ _ _ _ _ _ _ _ _ Hv Hf Hrun)
    as (existing & results & n1 & w3 & n2 & w4 & w5
        & Hex & Hfirst & Hsecond & _ & _ & ->).
  pose proof (categorizeNewSenders_count _ _ _ _ _ _ _ _ Hfirst) as Hn1.
  destruct (categorizeNewSenders_answers _ _ _ _ _ _ _ _ Hfirst)
    as [aiResults [Hanswer ->]].
  unfold categorizeUnknownSenders in Hsecond.
  apply fallback_loop_returned in Hsecond as [_ Hn2].
  exists existing, aiResults. split.
  - unfold getExistingSenders, Prisma.newsletter_findMany in *.
    injection Hex as Hex. simpl in Hex. now rewrite Hex.
  - split; [exact Hanswer|]. simpl. lia.
Qed.

Lemma run_count_bounds_witness :
  exists existing aiResults,
    getExistingSenders
      (uniq (JsMap.keys (sr_senders (Scenario.oneFound "x@corp.example"))))
      "u1" Scenario.start
    = (Returned existing, Scenario.start) /\
    aiCategorizeSenders Scenario.insufficient
      (emit Scenario.start
         (EvFindSenders 20 None (oldestCategorizedEmailTime Scenario.alice)
            (newestCategorizedEmailTime Scenario.alice)))
      Scenario.alice
      (map (fun s =>
              (s, snippetsOf (sr_senders (Scenario.oneFound "x@corp.example"))
                    s))
         (filter (noStaticRule Scenario.insufficient)
            (uniq (sendersToCategorize
                     (uniq (JsMap.keys
                              (sr_senders
                                 (Scenario.oneFound "x@corp.example"))))
                     existing))))
      (filter (fun c => cat_userId c =? "u1")%string
         (categories (db Scenario.start)))
    = Returned aiResults /\
    let results :=
      preCategorizeSendersWithStaticRules Scenario.insufficient
        (uniq (sendersToCategorize
                 (uniq (JsMap.keys
                          (sr_senders (Scenario.oneFound "x@corp.example"))))
                 existing)) ++ aiResults in
    let saved := length (filter (fun r => truthy (r_category r)) results) in
    saved <= categorizedCount (mkCategorized 1 None)
    <= saved + length (unknownSendersOf results existing).
Proof.
  apply (@run_count_bounds Scenario.insufficient "u1" None Scenario.start
           Scenario.alice "token" (Scenario.oneFound "x@corp.example")
           (mkCategorized 1 None)
           (snd (categorizeSenders Scenario.insufficient "u1" None
                   Scenario.start))); reflexivity.
Defined.
